(** * Nexalar ML service: persona prediction and weekly insights

    A shallow embedding of [app/routers/persona.py] and
    [app/routers/insight.py], with the part of the Python runtime the two
    routers rely on (dynamic values, binary64 floats, exceptions, dictionaries)
    and the properties of the feature builder, the label resolver, the
    confidence computation and the improvement rate. *)

From Stdlib Require Import ZArith List String Ascii Bool Lia Permutation.
From Stdlib Require Import DecimalString.
From Stdlib Require Import Floats.SpecFloat.
Import ListNotations.

Open Scope Z_scope.
Open Scope string_scope.

(* ================================================================== *)
(** * Python floats

    A Python [float] (and a numpy [float64]) is an IEEE 754 binary64 number.
    It is modelled by [spec_float] at precision 53 and maximal exponent 1024;
    NaN has neither sign nor payload.  Arithmetic is the round-to-nearest-even
    arithmetic of the Standard Library; the conversions from and to decimal
    text are the correctly rounded ones of CPython. *)

Module PyFloat.

Definition prec : Z := 53.
Definition emax : Z := 1024.

Definition float64 : Type := spec_float.

Definition pos_zero : float64 := S754_zero false.
Definition nan : float64 := S754_nan.
Definition infinity : float64 := S754_infinity false.

Definition sub : float64 -> float64 -> float64 := SFsub prec emax.
Definition mul : float64 -> float64 -> float64 := SFmul prec emax.
Definition div : float64 -> float64 -> float64 := SFdiv prec emax.
Definition ltb : float64 -> float64 -> bool := SFltb.

(** The float nearest to an integer (ties to even); an integer beyond the
    largest finite float gives an infinity here, which [float(int)] turns
    into an [OverflowError]. *)
Definition of_Z (z : Z) : float64 := binary_normalize prec emax z 0 false.

(** The float nearest to the fraction [n / d], with the sign [neg]. *)
Definition of_ratio (neg : bool) (n : N) (d : positive) : float64 :=
  match n with
  | N0 => S754_zero neg
  | Npos p =>
      let '(q, e, l) := SFdiv_core_binary prec emax (Zpos p) 0 (Zpos d) 0 in
      binary_round_aux prec emax neg q e l
  end.

Definition is_finite (x : float64) : bool :=
  match x with
  | S754_zero _ | S754_finite _ _ _ => true
  | S754_infinity _ | S754_nan => false
  end.

Definition is_nan (x : float64) : bool :=
  match x with S754_nan => true | _ => false end.

(** [n / d] rounded to the nearest integer, ties to even. *)
Definition div_half_even (n : N) (d : positive) : N :=
  let q := N.div n (Npos d) in
  let r := N.modulo n (Npos d) in
  match N.compare (2 * r) (Npos d) with
  | Lt => q
  | Gt => N.succ q
  | Eq => if N.even q then q else N.succ q
  end.

(** The exact value [m * 2^e * 10^nd] rounded to the nearest integer, ties to
    even: the digits CPython's [dtoa] produces in its fixed mode. *)
Definition scaled_digits (m : positive) (e : Z) (nd : N) : N :=
  match e with
  | Zneg k => div_half_even (Npos m * 10 ^ nd) (2 ^ k)
  | _ => Npos m * 2 ^ Z.to_N e * 10 ^ nd
  end.

Definition pow10 (nd : N) : positive :=
  match (10 ^ nd)%N with Npos p => p | N0 => 1%positive end.

(** [round(x, nd)] for a float [x] and [nd >= 0]: the decimal expansion of
    [x] correctly rounded to [nd] places, read back as a float. *)
Definition round (x : float64) (nd : N) : float64 :=
  match x with
  | S754_finite s m e => of_ratio s (scaled_digits m e nd) (pow10 nd)
  | _ => x
  end.

Definition string_of_N (n : N) : string :=
  NilZero.string_of_uint (N.to_uint n).

Fixpoint zeros (k : nat) : string :=
  match k with O => EmptyString | S k' => String "0" (zeros k') end.

(** The last [nd] decimal digits of [n], padded with zeros on the left. *)
Definition frac_digits (n : N) (nd : N) : string :=
  let s := string_of_N (N.modulo n (10 ^ nd)) in
  zeros (N.to_nat nd - String.length s) ++ s.

Definition fixed_digits (n : N) (nd : N) : string :=
  string_of_N (N.div n (10 ^ nd)) ++
  (if N.eqb nd 0 then EmptyString else "." ++ frac_digits n nd).

(** [format(x, '.<nd>f')] for a float [x]. *)
Definition format_fixed (x : float64) (nd : N) : string :=
  match x with
  | S754_nan => "nan"
  | S754_infinity s => if s then "-inf" else "inf"
  | S754_zero s => (if s then "-" else "") ++ fixed_digits 0 nd
  | S754_finite s m e =>
      (if s then "-" else "") ++ fixed_digits (scaled_digits m e nd) nd
  end.

(** ** Decimal text to float: [float(str)]

    The grammar of the language reference, over ASCII text: optional
    surrounding whitespace, an optional sign, then [inf], [infinity] or
    [nan] in any letter case, or a decimal number with an optional exponent;
    digits may be grouped by single underscores.  A number too large for a
    finite float reads as an infinity. *)

Definition digit_of (c : ascii) : option N :=
  let n := N_of_ascii c in
  if ((48 <=? n) && (n <=? 57))%N then Some (n - 48)%N else None.

Definition is_space (c : ascii) : bool :=
  let n := N_of_ascii c in
  (((9 <=? n) && (n <=? 13)) || ((28 <=? n) && (n <=? 32)))%N.

Definition lower (c : ascii) : ascii :=
  let n := N_of_ascii c in
  if ((65 <=? n) && (n <=? 90))%N then ascii_of_N (n + 32) else c.

Fixpoint lstrip (s : list ascii) : list ascii :=
  match s with
  | c :: s' => if is_space c then lstrip s' else s
  | [] => []
  end.

Definition strip (s : list ascii) : list ascii :=
  rev (lstrip (rev (lstrip s))).

(** The digits after a first one: [(["_"] digit)*].  The accumulator holds
    the value read so far and the number of digits read. *)
Fixpoint more_digits (acc cnt : N) (s : list ascii) : N * N * list ascii :=
  match s with
  | c :: s' =>
      match digit_of c with
      | Some d => more_digits (acc * 10 + d) (cnt + 1) s'
      | None =>
          if Ascii.eqb c "_" then
            match s' with
            | c2 :: s'' =>
                match digit_of c2 with
                | Some d => more_digits (acc * 10 + d) (cnt + 1) s''
                | None => (acc, cnt, s)
                end
            | [] => (acc, cnt, s)
            end
          else (acc, cnt, s)
      end
  | [] => (acc, cnt, [])
  end%N.

Definition digitpart (acc : N) (s : list ascii) : option (N * N * list ascii) :=
  match s with
  | c :: s' =>
      match digit_of c with
      | Some d => Some (more_digits (acc * 10 + d) 1 s')
      | None => None
      end
  | [] => None
  end%N.

(** [number ::= [digitpart] "." digitpart | digitpart ["."]]: the digits as
    one integer, the number of those after the point, and the rest. *)
Definition number (s : list ascii) : option (N * N * list ascii) :=
  match digitpart 0 s with
  | Some (ip, _, rest) =>
      match rest with
      | "."%char :: r1 =>
          match digitpart ip r1 with
          | Some r => Some r
          | None => Some (ip, 0%N, r1)
          end
      | _ => Some (ip, 0%N, rest)
      end
  | None =>
      match s with
      | "."%char :: r1 => digitpart 0 r1
      | _ => None
      end
  end.

Definition split_sign (s : list ascii) : bool * list ascii :=
  match s with
  | "-"%char :: s' => (true, s')
  | "+"%char :: s' => (false, s')
  | _ => (false, s)
  end.

(** [exponent ::= ("e" | "E") [sign] digitpart], up to the end of the text;
    no exponent is exponent zero. *)
Definition exponent (s : list ascii) : option Z :=
  match s with
  | [] => Some 0
  | c :: s' =>
      if Ascii.eqb (lower c) "e" then
        let '(neg, s'') := split_sign s' in
        match digitpart 0 s'' with
        | Some (x, _, []) => Some (if neg then - Z.of_N x else Z.of_N x)
        | _ => None
        end
      else None
  end.

(** The float nearest to [n * 10^e]. *)
Definition of_decimal (neg : bool) (n : N) (e : Z) : float64 :=
  match e with
  | Zneg k => of_ratio neg n (pow10 (Npos k))
  | _ => of_ratio neg (n * 10 ^ Z.to_N e) 1
  end.

Definition of_string (s : string) : option float64 :=
  let '(neg, body) := split_sign (strip (list_ascii_of_string s)) in
  let word := string_of_list_ascii (map lower body) in
  if String.eqb word "inf" || String.eqb word "infinity" then
    Some (S754_infinity neg)
  else if String.eqb word "nan" then Some S754_nan
  else
    match number body with
    | Some (n, frac, rest) =>
        match exponent rest with
        | Some x => Some (of_decimal neg n (x - Z.of_N frac))
        | None => None
        end
    | None => None
    end.

(** ** Float to decimal text: [repr(float)]

    The shortest decimal text that reads back as the same float and, among
    those, the one nearest to it; printed in fixed notation when the decimal
    point falls within the digits' neighbourhood, with an exponent
    otherwise. *)

Definition exact (m : positive) (e : Z) : N * positive :=
  match e with
  | Zneg k => (Npos m, 2 ^ k)%positive
  | _ => (Npos m * 2 ^ Z.to_N e, 1%positive)%N
  end.

Definition ge_pow10 (num : N) (den : positive) (e10 : Z) : bool :=
  match e10 with
  | Zneg k => (Npos den <=? num * 10 ^ Npos k)%N
  | _ => (10 ^ Z.to_N e10 * Npos den <=? num)%N
  end.

(** The [e10] with [10^e10 <= num/den < 10^(e10+1)], from the binary
    exponent [b] with [2^b <= num/den < 2^(b+1)]. *)
Definition decimal_exponent (num : N) (den : positive) (b : Z) : Z :=
  let est := (b * 30103) / 100000 in
  if ge_pow10 num den (est + 1) then est + 1
  else if ge_pow10 num den est then est
  else est - 1.

(** The candidate with [k] significant digits: the value scaled by
    [10^p], [p = k - 1 - e10], lies between the integers [lo] and [lo + 1];
    the nearer one that reads back as [x] is kept. *)
Definition candidate (x : float64) (num : N) (den : positive) (e10 : Z)
    (k : Z) : option N :=
  let p := k - 1 - e10 in
  let '(n, d) :=
    match p with
    | Zneg q => (num, (den * pow10 (Npos q))%positive)
    | _ => (num * 10 ^ Z.to_N p, den)%N
    end in
  let lo := N.div n (Npos d) in
  let r := N.modulo n (Npos d) in
  let hi := N.succ lo in
  let ok c := SFeqb (of_decimal false c (- p)) x in
  let first_ok a b :=
    if ok a then Some a else if ok b then Some b else None in
  if N.eqb r 0 then Some lo
  else
    match N.compare (2 * r) (Npos d) with
    | Lt => first_ok lo hi
    | Gt => first_ok hi lo
    | Eq => if N.even lo then first_ok lo hi else first_ok hi lo
    end.

Fixpoint shortest (x : float64) (num : N) (den : positive) (e10 : Z)
    (k : Z) (fuel : nat) : N * Z :=
  match fuel with
  | O => (N.div num (Npos den), k)
  | S fuel' =>
      match candidate x num den e10 k with
      | Some c => (c, k)
      | None => shortest x num den e10 (k + 1) fuel'
      end
  end.

Fixpoint strip_zeros_rev (s : list ascii) : list ascii :=
  match s with
  | "0"%char :: (_ :: _) as s' => strip_zeros_rev s'
  | _ => s
  end.

(** The significant digits of a positive finite float, without trailing
    zeros, and the position [decpt] of the decimal point: the value is
    [0.d1 d2 ... * 10^decpt]. *)
Definition shortest_digits (m : positive) (e : Z) : list ascii * Z :=
  let x := S754_finite false m e in
  let '(num, den) := exact m e in
  let e10 := decimal_exponent num den (Zpos (digits2_pos m) + e - 1) in
  let '(c, k) := shortest x num den e10 1 17 in
  let ds := list_ascii_of_string (string_of_N c) in
  let decpt := e10 + 1 + (Z.of_nat (List.length ds) - k) in
  (rev (strip_zeros_rev (rev ds)), decpt).

Definition string_of_Z (z : Z) : string :=
  match z with
  | Zneg p => "-" ++ string_of_N (Npos p)
  | _ => string_of_N (Z.to_N z)
  end.

Definition exp_text (x : Z) : string :=
  let a := string_of_N (Z.to_N (Z.abs x)) in
  (if (x <? 0)%Z then "-" else "+") ++
  (if (String.length a <? 2)%nat then "0" ++ a else a).

Definition repr_digits (ds : list ascii) (decpt : Z) : string :=
  let nd := Z.of_nat (List.length ds) in
  if ((-4 <? decpt) && (decpt <=? 16))%Z then
    if (decpt <=? 0)%Z then
      "0." ++ zeros (Z.to_nat (- decpt)) ++ string_of_list_ascii ds
    else if (nd <=? decpt)%Z then
      string_of_list_ascii ds ++ zeros (Z.to_nat (decpt - nd)) ++ ".0"
    else
      string_of_list_ascii (firstn (Z.to_nat decpt) ds) ++ "." ++
      string_of_list_ascii (skipn (Z.to_nat decpt) ds)
  else
    string_of_list_ascii (firstn 1 ds) ++
    (if (1 <? nd)%Z then "." ++ string_of_list_ascii (skipn 1 ds) else "") ++
    "e" ++ exp_text (decpt - 1).

Definition repr (x : float64) : string :=
  match x with
  | S754_nan => "nan"
  | S754_infinity s => if s then "-inf" else "inf"
  | S754_zero s => if s then "-0.0" else "0.0"
  | S754_finite s m e =>
      let '(ds, decpt) := shortest_digits m e in
      (if s then "-" else "") ++ repr_digits ds decpt
  end.

End PyFloat.

(* ================================================================== *)
(** * Python values, exceptions and dictionaries *)

Module Py.

Import PyFloat.

(** The values a decoded JSON body holds ([Dict[str, Any]]).  A list or a
    nested dictionary is observed by the routers only through its type name
    and its [str()]; [PyObj] carries these two. *)
Inductive value : Type :=
| PyNone
| PyBool (b : bool)
| PyInt (n : Z)
| PyFloat (x : float64)
| PyStr (s : string)
| PyObj (type_name : string) (text : string).

Inductive exc_class : Type :=
| ValueError
| TypeError
| OverflowError
| AttributeError
| IndexError
| OtherError (name : string).

(** Every exception here is an instance of [Exception].  [Exc c text] is
    one of class [c] with [str(e) = text]; FastAPI's [HTTPException] is kept
    apart because the handlers catch it by class. *)
Inductive exception : Type :=
| Exc (cls : exc_class) (text : string)
| HTTPException (status_code : Z) (detail : string).

Definition exc_str (e : exception) : string :=
  match e with
  | Exc _ text => text
  | HTTPException c d => string_of_Z c ++ ": " ++ d
  end.

Inductive result (A : Type) : Type :=
| Ok (a : A)
| Raise (e : exception).
Arguments Ok {A} a.
Arguments Raise {A} e.

(** ** Builtins on values *)

(** [type(v).__name__] *)
Definition type_name_of (v : value) : string :=
  match v with
  | PyNone => "NoneType"
  | PyBool _ => "bool"
  | PyInt _ => "int"
  | PyFloat _ => "float"
  | PyStr _ => "str"
  | PyObj t _ => t
  end.

(** [str(v)] *)
Definition py_str (v : value) : string :=
  match v with
  | PyNone => "None"
  | PyBool b => if b then "True" else "False"
  | PyInt n => string_of_Z n
  | PyFloat x => repr x
  | PyStr s => s
  | PyObj _ text => text
  end.

(** [float(int)]: the nearest float, or [OverflowError]. *)
Definition float_of_int (n : Z) : result float64 :=
  let x := of_Z n in
  if is_finite x then Ok x
  else Raise (Exc OverflowError "int too large to convert to float").

(** [float(v)].  A string that is no number raises [ValueError] (the text
    shown is the one for a string without quotes or escapes in it); [None]
    and containers raise [TypeError]. *)
Definition py_float (v : value) : result float64 :=
  match v with
  | PyBool b => Ok (of_Z (if b then 1 else 0))
  | PyInt n => float_of_int n
  | PyFloat x => Ok x
  | PyStr s =>
      match of_string s with
      | Some x => Ok x
      | None =>
          Raise (Exc ValueError
                   ("could not convert string to float: '" ++ s ++ "'"))
      end
  | PyNone | PyObj _ _ =>
      Raise (Exc TypeError
               ("float() argument must be a string or a real number, not '"
                ++ type_name_of v ++ "'"))
  end.

(** [v > n] for an [int] literal [n]: numbers compare by value (a NaN is
    greater than nothing), anything else raises [TypeError]. *)
Definition py_gt_int (v : value) (n : Z) : result bool :=
  match v with
  | PyBool b => Ok (n <? (if b then 1 else 0))%Z
  | PyInt k => Ok (n <? k)%Z
  | PyFloat x => Ok (ltb (of_Z n) x)
  | _ =>
      Raise (Exc TypeError
               ("'>' not supported between instances of '"
                ++ type_name_of v ++ "' and 'int'"))
  end.

(** [format(v, '.<nd>f')]: a float is printed with [nd] decimals, an [int]
    or [bool] is first converted to a float. *)
Definition py_format_f (v : value) (nd : N) : result string :=
  match v with
  | PyFloat x => Ok (format_fixed x nd)
  | PyInt n =>
      match float_of_int n with
      | Ok x => Ok (format_fixed x nd)
      | Raise e => Raise e
      end
  | PyBool b => Ok (format_fixed (of_Z (if b then 1 else 0)) nd)
  | PyStr _ =>
      Raise (Exc ValueError "Unknown format code 'f' for object of type 'str'")
  | PyNone | PyObj _ _ =>
      Raise (Exc TypeError
               ("unsupported format string passed to "
                ++ type_name_of v ++ ".__format__"))
  end.


(** ** Strings *)

Definition str_lower (s : string) : string :=
  string_of_list_ascii (map lower (list_ascii_of_string s)).

(** [s.replace(a, b)] for one-character [a] and [b]. *)
Definition str_replace_char (a b : ascii) (s : string) : string :=
  string_of_list_ascii
    (map (fun c => if Ascii.eqb c a then b else c) (list_ascii_of_string s)).

Fixpoint str_prefix (p s : string) : bool :=
  match p, s with
  | EmptyString, _ => true
  | String a p', String b s' => Ascii.eqb a b && str_prefix p' s'
  | String _ _, EmptyString => false
  end.

(** [p in s] for strings. *)
Fixpoint str_contains (p s : string) : bool :=
  str_prefix p s ||
  match s with
  | EmptyString => false
  | String _ s' => str_contains p s'
  end.

Definition str_truthy (s : string) : bool :=
  match s with EmptyString => false | _ => true end.

(** [sep.join(parts)] *)
Fixpoint str_join (sep : string) (parts : list string) : string :=
  match parts with
  | [] => ""
  | [p] => p
  | p :: rest => p ++ sep ++ str_join sep rest
  end.

(** ** Dictionaries

    A [dict] is the list of its items in insertion order; its keys are
    pairwise distinct ([wf]).  [get] is [d.get(k)] and [k in d]. *)
Section Dict.
Context {K V : Type}.
Variable eqb : K -> K -> bool.

Definition dict : Type := list (K * V).

Fixpoint get (k : K) (d : dict) : option V :=
  match d with
  | [] => None
  | (k', v) :: d' => if eqb k k' then Some v else get k d'
  end.

Definition contains (k : K) (d : dict) : bool :=
  match get k d with Some _ => true | None => false end.

Definition get_default (k : K) (default : V) (d : dict) : V :=
  match get k d with Some v => v | None => default end.

Definition wf (d : dict) : Prop := NoDup (map fst d).
End Dict.

Definition truthy {K V : Type} (d : @dict K V) : bool :=
  match d with [] => false | _ => true end.

Definition str_dict (V : Type) : Type := @dict string V.

Definition pair_eqb (a b : string * string) : bool :=
  String.eqb (fst a) (fst b) && String.eqb (snd a) (snd b).

(** ** Sequences: [a[i]] with Python's negative indices *)
Definition getitem {A : Type} (a : list A) (i : Z) : option A :=
  let n := Z.of_nat (List.length a) in
  if (0 <=? i)%Z then nth_error a (Z.to_nat i)
  else if (0 <=? n + i)%Z then nth_error a (Z.to_nat (n + i))
  else None.

End Py.

(* ================================================================== *)
(** * The service runtime: model objects, log, effects *)

Module Runtime.

Import PyFloat Py.

(** A two-dimensional numpy array of [float64], row by row. *)
Definition ndarray : Type := list (list float64).

Definition shape (a : ndarray) : nat * nat :=
  (List.length a, match a with r :: _ => List.length r | [] => O end).

(** [np.array(features, dtype=np.float64).reshape(1, -1)] *)
Definition reshape_row (features : list float64) : ndarray := [features].

(** [np.max(row)]: a NaN wins; an empty row raises [ValueError]. *)
Definition np_maximum (a b : float64) : float64 :=
  if SFleb b a || is_nan a then a else b.

Definition np_max (row : list float64) : result float64 :=
  match row with
  | [] =>
      Raise (Exc ValueError
        "zero-size array to reduction operation maximum which has no identity")
  | x :: rest => Ok (fold_left np_maximum rest x)
  end.

(** An element of the array [model.predict] returns, as the label resolver
    sees it: an [int] or numpy integer (a [bool] is an [int]) with its
    [int()] value, a [str], or a value of any other type with its [str()]. *)
Inductive prediction_value : Type :=
| PredInt (n : Z)
| PredStr (s : string)
| PredOther (text : string).

(** What [generator.generate] returns: a dictionary the handler reads at
    these four keys.  The score is a float, the level a string and the
    metrics a mapping, as the interface of the scoring capability declares
    them. *)
Record insights : Type := {
  engagement_score : float64;
  performance_level : string;
  recommendations : list string;
  metrics : str_dict value
}.

(** An object of the model registry.  A method the object's class lacks is
    [None]; calling it raises [AttributeError]. *)
Record model : Type := {
  class_name : string;
  transform : option (ndarray -> result ndarray);
  predict : option (ndarray -> result (list prediction_value));
  predict_proba : option (ndarray -> result ndarray);
  generate : option (str_dict value -> string -> result insights)
}.

(** The environment of a request: [model_loader.get_model], a read-only
    cache of loaded objects, and the clock behind [datetime.utcnow()]. *)
Record env : Type := {
  get_model : string -> option model;
  utcnow : Z
}.

Inductive level : Type := DEBUG | INFO | WARNING | ERROR.

(** One constructor for each logging call of the two routers, with the values
    its f-string interpolates. *)
Inductive log_message : Type :=
| MsgPersonaRequest
    (* "Persona prediction request received" *)
| MsgFeatureValidationFailed (e : string)
    (* "Feature validation failed: {e}" *)
| MsgFeaturesShape (shape : nat * nat)
    (* "Features shape: {features_array.shape}" *)
| MsgRawPrediction (prediction : list prediction_value)
                   (first : prediction_value)
    (* "Raw prediction: {prediction}, type: {type(prediction[0])}" *)
| MsgNoPredictProba
    (* "Model doesn't support predict_proba, using confidence 1.0" *)
| MsgPrediction (persona : string) (confidence : string)
    (* "Prediction: {persona} (confidence: {confidence:.2f})" *)
| MsgPredictionFailed (e : string)
    (* "Prediction failed: {e}", with the traceback *)
| MsgGeneratingInsights
    (* "Generating weekly insights" *)
| MsgNoImprovementRate (e : string)
    (* "Could not calculate improvement rate: {e}" *)
| MsgInsightsGenerated (level : string) (score : string)
    (* "Insights generated: {level} ({score:.1f}/100)" *)
| MsgInsightFailed (e : string)
    (* "Insight generation failed: {e}", with the traceback *).

(** What a request does to the world, in order: log records, registry
    lookups and calls of model methods. *)
Inductive event : Type :=
| Log (lvl : level) (msg : log_message)
| GetModel (name : string)
| CallTransform (x : ndarray)
| CallPredict (x : ndarray)
| CallPredictProba (x : ndarray)
| CallGenerate (data : str_dict value) (persona : string).

Definition trace : Type := list event.

(** Computations that may raise and that extend the trace. *)
Definition M (A : Type) : Type := trace -> result A * trace.

Definition ret {A : Type} (a : A) : M A := fun t => (Ok a, t).

Definition raise {A : Type} (e : exception) : M A := fun t => (Raise e, t).

Definition bind {A B : Type} (m : M A) (k : A -> M B) : M B :=
  fun t =>
    match m t with
    | (Ok a, t') => k a t'
    | (Raise e, t') => (Raise e, t')
    end.

Definition lift {A : Type} (r : result A) : M A := fun t => (r, t).

Definition emit (ev : event) : M unit := fun t => (Ok tt, (t ++ [ev])%list).

(** [try: body except ...: handler].  The handler is [None] on an exception
    no [except] clause matches, which then propagates. *)
Definition try_except {A : Type} (body : M A)
    (handler : exception -> option (M A)) : M A :=
  fun t =>
    match body t with
    | (Ok a, t') => (Ok a, t')
    | (Raise e, t') =>
        match handler e with
        | Some h => h t'
        | None => (Raise e, t')
        end
    end.

Declare Scope py_scope.
Delimit Scope py_scope with py.
Notation "x <- m ;; k" := (bind m (fun x => k))
  (at level 100, m at next level, right associativity) : py_scope.
Notation "m ;; k" := (bind m (fun _ => k))
  (at level 100, right associativity) : py_scope.

Definition logger (lvl : level) (msg : log_message) : M unit :=
  emit (Log lvl msg).

(** [model_loader.get_model(name)] *)
Definition load (E : env) (name : string) : M (option model) :=
  bind (emit (GetModel name)) (fun _ => ret (get_model E name)).

Definition attribute_error {A : Type} (cls attr : string) : M A :=
  raise (Exc AttributeError
           ("'" ++ cls ++ "' object has no attribute '" ++ attr ++ "'")).

(** [obj.method(args)]: the attribute is looked up, which fails on an object
    without it, and then called. *)
Definition call_transform (scaler : model) (x : ndarray) : M ndarray :=
  match transform scaler with
  | Some f => bind (emit (CallTransform x)) (fun _ => lift (f x))
  | None => attribute_error (class_name scaler) "transform"
  end.

Definition call_predict (m : model) (x : ndarray)
    : M (list prediction_value) :=
  match predict m with
  | Some f => bind (emit (CallPredict x)) (fun _ => lift (f x))
  | None => attribute_error (class_name m) "predict"
  end.

Definition call_predict_proba (m : model) (x : ndarray) : M ndarray :=
  match predict_proba m with
  | Some f => bind (emit (CallPredictProba x)) (fun _ => lift (f x))
  | None => attribute_error (class_name m) "predict_proba"
  end.

(** [generator.generate(data, persona)], where [generator] may be [None]. *)
Definition call_generate (generator : option model)
    (data : str_dict value) (persona : string) : M insights :=
  match generator with
  | None => attribute_error "NoneType" "generate"
  | Some g =>
      match generate g with
      | Some f => bind (emit (CallGenerate data persona))
                       (fun _ => lift (f data persona))
      | None => attribute_error (class_name g) "generate"
      end
  end.

(** [returns m r]: whatever the trace, [m] ends in [r] and adds no event. *)
Definition returns {A : Type} (m : M A) (r : result A) : Prop :=
  forall t, m t = (r, t).

(** [silent m]: [m] has one outcome, whatever the trace, and adds no event. *)
Definition silent {A : Type} (m : M A) : Prop :=
  exists r, returns m r.


(** A method that, where the object has it, raises no [HTTPException]. *)
Definition raises_no_http {A B : Type} (method : option (A -> result B))
    : Prop :=
  forall f x status detail,
    method = Some f -> f x <> Raise (HTTPException status detail).

(** [a[i]] on a numpy array. *)
Definition np_getitem {A : Type} (a : list A) (i : Z) : M A :=
  match getitem a i with
  | Some x => ret x
  | None =>
      raise (Exc IndexError
               ("index " ++ string_of_Z i
                ++ " is out of bounds for axis 0 with size "
                ++ string_of_Z (Z.of_nat (List.length a))))
  end.

End Runtime.

(* ================================================================== *)
(** * [app/routers/persona.py] *)

Module Persona.

Import PyFloat Py Runtime.
Local Open Scope py_scope.

Definition PERSONA_LABELS : @dict Z string :=
  [ (0, "consistent_learner");
    (1, "fast_learner");
    (2, "new_learner");
    (3, "reflective_learner") ]%Z.

(** [{v: v for v in PERSONA_LABELS.values()}] *)
Definition PERSONA_LABELS_REVERSE : str_dict string :=
  map (fun kv => (snd kv, snd kv)) PERSONA_LABELS.

Definition feature_order : list string :=
  [ "total_activities"; "completion_rate"; "consistency_ratio";
    "avg_study_duration_min"; "total_completions"; "avg_session_gap_days";
    "active_days"; "total_study_time_hours"; "peak_hour";
    "weekend_activity_ratio"; "late_night_study_ratio"; "morning_study_ratio";
    "focus_score"; "streak_days"; "quiz_attempt_rate";
    "material_review_rate"; "pomodoro_usage_rate"; "dominant_time_period" ].

(** The texts of the two validation errors. *)
Definition missing_feature (key : string) : string :=
  "Missing required feature: '" ++ key ++ "'".

Definition not_numeric (key : string) (value : Py.value) : string :=
  "Feature '" ++ key ++ "' must be numeric. Got "
  ++ type_name_of value ++ ": '" ++ py_str value ++ "'".

(** [float(features_dict[key])] succeeds with [x]. *)
Definition coerces (features_dict : str_dict value) (key : string)
    (x : float64) : Prop :=
  exists v, get String.eqb key features_dict = Some v /\ py_float v = Ok x.

(** [key] is present with a value [float()] accepts. *)
Definition coercible (features_dict : str_dict value) (key : string)
    : Prop :=
  exists x, coerces features_dict key x.

(** The body of [for key in feature_order], on the keys still to visit:
    [key not in features_dict] and [features_dict[key]] are one lookup;
    [float(value)] is tried and a [ValueError] or [TypeError] of it is
    replaced by the error naming the key; the float is appended. *)
Fixpoint collect_features (features_dict : str_dict value)
    (keys : list string) (features : list float64) : M (list float64) :=
  match keys with
  | [] => ret features
  | key :: keys' =>
      match get String.eqb key features_dict with
      | None => raise (Exc ValueError (missing_feature key))
      | Some value =>
          numeric_value <-
            try_except (lift (py_float value))
              (fun e =>
                 match e with
                 | Exc ValueError _ | Exc TypeError _ =>
                     Some (raise (Exc ValueError (not_numeric key value)))
                 | _ => None
                 end) ;;
          collect_features features_dict keys'
            (app features [numeric_value])
      end
  end.

Definition extract_features_array (features_dict : str_dict value)
    : M ndarray :=
  try_except
    (features <- collect_features features_dict feature_order [] ;;
     ret (reshape_row features))
    (fun e =>
       match e with
       | Exc ValueError _ => None
       | _ =>
           Some (raise (Exc ValueError
                          ("Error processing features: " ++ exc_str e)))
       end).

Record PersonaFeaturesRequest : Type := {
  features : str_dict value
}.

Record PersonaResponse : Type := {
  persona : string;
  confidence : float64;
  model_version : string;
  predicted_at : Z
}.

(** Lines 108-117 of [predict_persona]: the persona of a raw prediction. *)
Definition persona_label (predicted_value : prediction_value) : string :=
  match predicted_value with
  | PredInt predicted_class =>
      get_default Z.eqb predicted_class "unknown" PERSONA_LABELS
  | PredStr s =>
      if contains String.eqb s PERSONA_LABELS_REVERSE then s else "unknown"
  | PredOther text => text
  end.

(** Lines 120-133 of [predict_persona]: the confidence of a raw prediction;
    the bare [except] catches whatever the [try] block raises. *)
Definition persona_confidence (model : Runtime.model)
    (features_scaled : ndarray) (predicted_value : prediction_value)
    : M float64 :=
  try_except
    (probabilities <- call_predict_proba model features_scaled ;;
     predicted_proba <- np_getitem probabilities 0 ;;
     match predicted_value with
     | PredInt n => np_getitem predicted_proba n
     | _ => lift (np_max predicted_proba)
     end)
    (fun _ =>
       Some (let confidence := of_Z 1 in
             logger WARNING MsgNoPredictProba ;;
             ret confidence)).

(** The events of [predict_persona] up to the label resolution, when nothing
    fails. *)
Definition prediction_events (features_array features_scaled : ndarray)
    (prediction : list prediction_value) (first : prediction_value) : trace :=
  [ Log INFO MsgPersonaRequest; GetModel "persona_model";
    GetModel "persona_scaler";
    Log DEBUG (MsgFeaturesShape (shape features_array));
    CallTransform features_array; CallPredict features_scaled;
    Log DEBUG (MsgRawPrediction prediction first) ].

Definition predict_persona (E : env) (request : PersonaFeaturesRequest)
    : M PersonaResponse :=
  try_except
    (logger INFO MsgPersonaRequest ;;
     model <- load E "persona_model" ;;
     scaler <- load E "persona_scaler" ;;
     match model, scaler with
     | Some model, Some scaler =>
         features_array <-
           try_except (extract_features_array (features request))
             (fun e =>
                match e with
                | Exc ValueError _ =>
                    Some (logger ERROR
                            (MsgFeatureValidationFailed (exc_str e)) ;;
                          raise (HTTPException 422 (exc_str e)))
                | _ => None
                end) ;;
         logger DEBUG (MsgFeaturesShape (shape features_array)) ;;
         features_scaled <- call_transform scaler features_array ;;
         prediction <- call_predict model features_scaled ;;
         first <- np_getitem prediction 0 ;;
         logger DEBUG (MsgRawPrediction prediction first) ;;
         predicted_value <- np_getitem prediction 0 ;;
         let persona := persona_label predicted_value in
         confidence <-
           persona_confidence model features_scaled predicted_value ;;
         logger INFO (MsgPrediction persona (format_fixed confidence 2)) ;;
         ret {| persona := persona;
                confidence := round confidence 4;
                model_version := "1.0.0";
                predicted_at := utcnow E |}
     | _, _ => raise (HTTPException 500 "Model not loaded")
     end)
    (fun e =>
       match e with
       | HTTPException _ _ => None
       | _ =>
           Some (logger ERROR (MsgPredictionFailed (exc_str e)) ;;
                 raise (HTTPException 500
                          ("Prediction failed: " ++ exc_str e)))
       end).

(** [get_persona_labels]: the body of the answer, under the key
    ["personas"], as the list of its label and description pairs. *)
Record persona_info : Type := {
  label : string;
  description : string
}.

Definition get_persona_labels : list persona_info :=
  [ {| label := "consistent_learner";
       description := "Regular study habits, steady progress" |};
    {| label := "fast_learner";
       description := "Quick completion, high engagement" |};
    {| label := "new_learner";
       description := "Just started, building habits" |};
    {| label := "reflective_learner";
       description := "Deep thinking, thorough learning" |} ].

End Persona.

(* ================================================================== *)
(** * [app/routers/insight.py] *)

Module Insight.

Import PyFloat Py Runtime.
Local Open Scope py_scope.

Definition persona_insights : str_dict string :=
  [ ("fast_learner",
     "As a Fast Learner, you thrive on quick absorption of new concepts and enjoy tackling challenges head-on.");
    ("consistent_learner",
     "As a Consistent Learner, your steady and disciplined approach helps you build strong foundations over time.");
    ("reflective_learner",
     "As a Reflective Learner, you excel at deep thinking and connecting ideas in meaningful ways.");
    ("new_learner",
     "As a New Learner, you're just beginning your journey and every step forward is a valuable achievement.") ].

Definition tips : @dict (string * string) string :=
  [ (("fast_learner", "excellent"),
     "Keep pushing your limits by exploring advanced topics or setting stretch goals for next week!");
    (("fast_learner", "good"),
     "Consider challenging yourself with more complex materials to maintain your momentum.");
    (("fast_learner", "average"),
     "Try breaking larger goals into smaller sprints to reignite your fast-paced learning style.");
    (("fast_learner", "needs_improvement"),
     "Start with quick wins — short, focused sessions can help you regain your learning rhythm.");
    (("consistent_learner", "excellent"),
     "Your consistency is paying off — consider mentoring others or tackling a passion project!");
    (("consistent_learner", "good"),
     "Maintain your steady pace and perhaps add one new learning technique to your routine.");
    (("consistent_learner", "average"),
     "Try scheduling your study sessions at the same time each day to strengthen your habits.");
    (("consistent_learner", "needs_improvement"),
     "Focus on rebuilding your routine — even 15 minutes daily can restart your consistent progress.");
    (("reflective_learner", "excellent"),
     "Your deep understanding is impressive — share your insights through notes or discussions to solidify learning!");
    (("reflective_learner", "good"),
     "Take time to review and connect this week's concepts with what you've learned before.");
    (("reflective_learner", "average"),
     "Try journaling about what you learn — it aligns perfectly with your reflective nature.");
    (("reflective_learner", "needs_improvement"),
     "Start with revisiting previous materials — your strength lies in making deep connections.");
    (("new_learner", "excellent"),
     "Amazing start! You're building great habits — keep exploring and stay curious!");
    (("new_learner", "good"),
     "You're making wonderful progress as a beginner — celebrate these early wins!");
    (("new_learner", "average"),
     "Every expert was once a beginner — keep experimenting to find what works best for you.");
    (("new_learner", "needs_improvement"),
     "Take it one step at a time — focus on understanding rather than speed, and you'll get there.") ].

(** [parts + [text + (suffix if count > 1 else '')]] when [count > 0], for
    the three counters of the progress sentence. *)
Definition counted (progress_parts : list string) (count : value)
    (verb noun suffix : string) : M (list string) :=
  positive <- lift (py_gt_int count 0) ;;
  if positive then
    several <- lift (py_gt_int count 1) ;;
    ret (app progress_parts
           [verb ++ " " ++ py_str count ++ " " ++ noun
            ++ (if several then suffix else "")])
  else ret progress_parts.

Definition progress_detail_of (progress_parts : list string) : string :=
  match progress_parts with
  | [one] => one
  | [one; two] => one ++ " and " ++ two
  | _ =>
      str_join ", " (removelast progress_parts) ++ ", and "
      ++ last progress_parts ""
  end.

(** [metrics.get(name, 0) if metrics else 0] *)
Definition metric (metrics : str_dict value) (name : string) : value :=
  if truthy metrics then get_default String.eqb name (PyInt 0) metrics
  else PyInt 0.

Definition generate_extended_message (persona performance_level : string)
    (metrics : str_dict value) (engagement_score : float64) : M string :=
  let persona_key :=
    if str_truthy persona
    then str_replace_char " " "_" (str_lower persona)
    else "new_learner" in
  let sentence_1 :=
    get_default String.eqb persona_key
      "Your unique learning style is shaping your educational journey in interesting ways."
      persona_insights in
  let study_time := metric metrics "study_time" in
  let pomodoro := metric metrics "pomodoro" in
  let quizzes := metric metrics "quizzes" in
  let modules := metric metrics "modules" in
  let progress_parts := [] in
  studied <- lift (py_gt_int study_time 0) ;;
  progress_parts <-
    (if studied then
       hours <- lift (py_format_f study_time 1) ;;
       ret (app progress_parts
              ["logged " ++ hours ++ " hours of study time"])
     else ret progress_parts) ;;
  progress_parts <-
    counted progress_parts pomodoro "completed" "Pomodoro session" "s" ;;
  progress_parts <-
    counted progress_parts quizzes "finished" "quiz" "zes" ;;
  progress_parts <-
    counted progress_parts modules "progressed through" "module" "s" ;;
  let sentence_2 :=
    match progress_parts with
    | [] =>
        "This week is a fresh start — begin with small steps and watch your progress grow."
    | _ =>
        let progress_detail := progress_detail_of progress_parts in
        if String.eqb performance_level "excellent" then
          "This week you've " ++ progress_detail
          ++ " — an outstanding achievement that puts you ahead of the curve!"
        else if String.eqb performance_level "good" then
          "This week you've " ++ progress_detail
          ++ ", showing solid commitment to your learning goals."
        else if String.eqb performance_level "average" then
          "This week you've " ++ progress_detail
          ++ ", which is a good foundation to build upon."
        else
          "This week you've " ++ progress_detail
          ++ " — every bit of progress counts toward your success."
    end in
  let tip_key := (persona_key, performance_level) in
  let sentence_3 :=
    get_default pair_eqb tip_key
      "Keep up the effort and stay committed to your learning journey!"
      tips in
  let extended_message := sentence_1 ++ " " ++ sentence_2 ++ " " ++ sentence_3 in
  ret extended_message.

Record InsightRequest : Type := {
  weekly_data : str_dict value;
  persona : string;
  previous_week_data : option (str_dict value)
}.

Record InsightResponse : Type := {
  engagement_score : float64;
  performance_level : string;
  improvement_rate : float64;
  recommendations : list string;
  summary : string;
  extended_message : string;
  metrics : str_dict value;
  response_persona : string
}.

(** [if request.previous_week_data:] holds for a dictionary with an item. *)
Definition supplied (previous_week_data : option (str_dict value))
    : option (str_dict value) :=
  match previous_week_data with
  | Some d => if truthy d then Some d else None
  | None => None
  end.

(** Lines 154-167 of [generate_weekly_insights]. *)
Definition improvement (E : env) (request : InsightRequest)
    (insights : Runtime.insights) : M float64 :=
  let improvement_rate := pos_zero in
  match supplied (previous_week_data request) with
  | Some previous =>
      try_except
        (prev_generator <- load E "insight_generator" ;;
         prev_insights <-
           call_generate prev_generator previous (persona request) ;;
         let current_score := Runtime.engagement_score insights in
         let prev_score := Runtime.engagement_score prev_insights in
         if ltb (of_Z 0) prev_score then
           ret (mul (div (sub current_score prev_score) prev_score)
                    (of_Z 100))
         else ret improvement_rate)
        (fun e =>
           Some (logger WARNING (MsgNoImprovementRate (exc_str e)) ;;
                 ret improvement_rate))
  | None => ret improvement_rate
  end.

Definition summary_of (level : string) (score : float64) : string :=
  let shown := format_fixed score 1 in
  let summary_templates : str_dict string :=
    [ ("excellent",
       "Outstanding performance this week! Your engagement score of "
       ++ shown ++ "/100 shows exceptional dedication.");
      ("good",
       "Great work this week! Your engagement score of "
       ++ shown ++ "/100 demonstrates solid progress.");
      ("average",
       "You're making progress with an engagement score of "
       ++ shown ++ "/100. Let's aim higher next week!");
      ("needs_improvement",
       "Your engagement score of "
       ++ shown ++ "/100 shows room for improvement. Let's build better habits together!") ] in
  get_default String.eqb level
    ("Your weekly engagement score: " ++ shown ++ "/100")
    summary_templates.

(** The outcome of the message generator on the insights of a request. *)
Definition current_message (request : InsightRequest)
    (insights : Runtime.insights) : result string :=
  fst (generate_extended_message (persona request)
         (Runtime.performance_level insights) (Runtime.metrics insights)
         (Runtime.engagement_score insights) []).

(** Lines 191-200 of [generate_weekly_insights]: the response. *)
Definition weekly_response (request : InsightRequest)
    (insights : Runtime.insights) (improvement_rate : float64)
    (summary extended_message : string) : InsightResponse :=
  {| engagement_score := Runtime.engagement_score insights;
     performance_level := Runtime.performance_level insights;
     improvement_rate := round improvement_rate 2;
     recommendations := Runtime.recommendations insights;
     summary := summary;
     extended_message := extended_message;
     metrics := Runtime.metrics insights;
     response_persona := persona request |}.

Definition generate_weekly_insights (E : env) (request : InsightRequest)
    : M InsightResponse :=
  try_except
    (logger INFO MsgGeneratingInsights ;;
     generator <- load E "insight_generator" ;;
     insights <-
       call_generate generator (weekly_data request) (persona request) ;;
     improvement_rate <- improvement E request insights ;;
     let level := Runtime.performance_level insights in
     let score := Runtime.engagement_score insights in
     let summary := summary_of level score in
     extended_message <-
       generate_extended_message (persona request) level
         (Runtime.metrics insights) score ;;
     logger INFO (MsgInsightsGenerated level (format_fixed score 1)) ;;
     ret (weekly_response request insights improvement_rate summary
            extended_message))
    (fun e =>
       Some (logger ERROR (MsgInsightFailed (exc_str e)) ;;
             raise (HTTPException 500
                      ("Insight generation failed: " ++ exc_str e)))).

(** The key [generate_extended_message] looks the persona up with:
    [persona.lower().replace(' ', '_') if persona else 'new_learner']. *)
Definition persona_key (persona : string) : string :=
  if str_truthy persona
  then str_replace_char " " "_" (str_lower persona)
  else "new_learner".

(** What [persona_key] does to one character of a persona. *)
Definition key_char (c : ascii) : ascii :=
  if Ascii.eqb (lower c) " " then "_"%char else lower c.

(** [get_performance_levels]: the body of the answer, under the key
    ["levels"]. *)
Record level_info : Type := {
  level_name : string;
  score_range : string;
  description : string;
  badge : string
}.

Definition get_performance_levels : list level_info :=
  [ {| level_name := "excellent";
       score_range := "85-100";
       description := "Outstanding engagement and progress";
       badge := "🌟" |};
    {| level_name := "good";
       score_range := "70-84";
       description := "Solid performance with consistent progress";
       badge := "👍" |};
    {| level_name := "average";
       score_range := "50-69";
       description := "Moderate engagement with room for growth";
       badge := "📈" |};
    {| level_name := "needs_improvement";
       score_range := "0-49";
       description := "Low engagement, needs focus on building habits";
       badge := "💪" |} ].

End Insight.

(* ================================================================== *)
(** * [app/config.py] *)

Module Config.

Import PyFloat Py.

(** [s.split(sep)] for a one-character separator: the pieces between the
    separators, one more than there are separators. *)
Fixpoint split_on (sep : ascii) (s : list ascii) : list (list ascii) :=
  match s with
  | [] => [[]]
  | c :: s' =>
      if Ascii.eqb c sep then [] :: split_on sep s'
      else
        match split_on sep s' with
        | piece :: pieces => (c :: piece) :: pieces
        | [] => [[c]]
        end
  end.

Definition str_split (sep : ascii) (s : string) : list string :=
  map string_of_list_ascii (split_on sep (list_ascii_of_string s)).

(** [s.strip()] *)
Definition str_strip (s : string) : string :=
  string_of_list_ascii (strip (list_ascii_of_string s)).

(** The fields of [Settings] that its two properties read; the values are
    those of the environment, or the defaults of the class. *)
Record Settings : Type := {
  environment : string;
  allowed_origins : string;
  feature_count : Z
}.

Definition default_settings : Settings :=
  {| environment := "development";
     allowed_origins :=
       "http://localhost:3000,http://localhost:5000,http://localhost:5173";
     feature_count := 18 |}.

(** [[origin.strip() for origin in self.allowed_origins.split(",")]] *)
Definition cors_origins (self : Settings) : list string :=
  map str_strip (str_split "," (allowed_origins self)).

(** [self.environment.lower() == "production"] *)
Definition is_production (self : Settings) : bool :=
  String.eqb (str_lower (environment self)) "production".

End Config.

(* ================================================================== *)
(** * Sample requests and model objects

    Stand-ins for the pickled artifacts, used to run the two handlers on
    concrete requests. *)

Module Samples.

Import PyFloat Py Runtime.

(** The float written [n]e[e] in decimal. *)
Definition decimal (n : N) (e : Z) : float64 := of_decimal false n e.

(** A scaler fitted to zero mean and unit variance. *)
Definition StandardScaler : model :=
  {| class_name := "StandardScaler";
     transform := Some (fun x => Ok x);
     predict := None;
     predict_proba := None;
     generate := None |}.

(** A classifier that answers [label] with the class probabilities [proba]
    for every sample, or has no [predict_proba] at all. *)
Definition classifier (label : prediction_value)
    (proba : option (list float64)) : model :=
  {| class_name := "RandomForestClassifier";
     transform := None;
     predict := Some (fun _ => Ok [label]);
     predict_proba :=
       match proba with
       | Some row => Some (fun _ => Ok [row])
       | None => None
       end;
     generate := None |}.

Definition tier (score : Z) : string :=
  if (85 <=? score)%Z then "excellent"
  else if (70 <=? score)%Z then "good"
  else if (50 <=? score)%Z then "average"
  else "needs_improvement".

(** A generator scoring [base + per_hour * study_time] for an integral
    number of hours ([0] when the key is absent); it raises on anything
    else. *)
Definition InsightGenerator (base per_hour : Z) : model :=
  {| class_name := "InsightGenerator";
     transform := None;
     predict := None;
     predict_proba := None;
     generate :=
       Some (fun data _ =>
               match get_default String.eqb "study_time" (PyInt 0) data with
               | PyInt hours =>
                   let score := (base + per_hour * hours)%Z in
                   Ok {| engagement_score := of_Z score;
                         performance_level := tier score;
                         recommendations := ["Keep a steady schedule"];
                         metrics := data |}
               | other =>
                   Raise (Exc TypeError
                            ("unsupported operand type(s) for *: 'int' and '"
                             ++ type_name_of other ++ "'"))
               end) |}.

Definition registry (persona_model persona_scaler insight_generator
    : option model) : env :=
  {| get_model := fun name =>
       if String.eqb name "persona_model" then persona_model
       else if String.eqb name "persona_scaler" then persona_scaler
       else if String.eqb name "insight_generator" then insight_generator
       else None;
     utcnow := 1762182000 |}.

Definition probabilities : list float64 :=
  [decimal 9 (-1); decimal 5 (-2); decimal 3 (-2); decimal 2 (-2)].

Definition service : env :=
  registry (Some (classifier (PredInt 0) (Some probabilities)))
           (Some StandardScaler)
           (Some (InsightGenerator 50 5)).

Definition valid_features : str_dict value :=
  [ ("total_activities", PyInt 42);
    ("completion_rate", PyFloat (decimal 85 (-2)));
    ("consistency_ratio", PyStr "0.7");
    ("avg_study_duration_min", PyFloat (decimal 255 (-1)));
    ("total_completions", PyInt 17);
    ("avg_session_gap_days", PyStr " 1.5 ");
    ("active_days", PyInt 5);
    ("total_study_time_hours", PyFloat (decimal 125 (-1)));
    ("peak_hour", PyInt 20);
    ("weekend_activity_ratio", PyFloat (decimal 25 (-2)));
    ("late_night_study_ratio", PyInt 0);
    ("morning_study_ratio", PyStr "1e-1");
    ("focus_score", PyInt 80);
    ("streak_days", PyInt 3);
    ("quiz_attempt_rate", PyFloat (decimal 5 (-1)));
    ("material_review_rate", PyFloat (decimal 4 (-1)));
    ("pomodoro_usage_rate", PyBool true);
    ("dominant_time_period", PyInt 2) ].

(** The row [valid_features] is turned into. *)
Definition valid_array : ndarray :=
  [[ decimal 42 0; decimal 85 (-2); decimal 7 (-1); decimal 255 (-1);
     decimal 17 0; decimal 15 (-1); decimal 5 0; decimal 125 (-1);
     decimal 20 0; decimal 25 (-2); S754_zero false; decimal 1 (-1);
     decimal 80 0; decimal 3 0; decimal 5 (-1); decimal 4 (-1);
     decimal 1 0; decimal 2 0 ]].

(** The same mapping built in the opposite order, with two more keys. *)
Definition shuffled_features : str_dict value :=
  (("user_id", PyStr "u-17") :: rev valid_features
   ++ [("tags", PyObj "list" "['a', 'b']")])%list.

(** [valid_features] with the value at [key] replaced. *)
Definition with_feature (key : string) (v : value) : str_dict value :=
  map (fun kv => if String.eqb (fst kv) key then (key, v) else kv)
      valid_features.

(** [valid_features] without [key]. *)
Definition without_feature (key : string) : str_dict value :=
  filter (fun kv => negb (String.eqb (fst kv) key)) valid_features.

Definition persona_request (d : str_dict value)
    : Persona.PersonaFeaturesRequest :=
  {| Persona.features := d |}.

Definition insight_request (hours : Z) (previous : option (str_dict value))
    : Insight.InsightRequest :=
  {| Insight.weekly_data :=
       [("study_time", PyInt hours); ("pomodoro", PyInt 4);
        ("quizzes", PyInt 1); ("modules", PyInt 2)];
     Insight.persona := "Fast Learner";
     Insight.previous_week_data := previous |}.

(** A scaler fitted on 17 columns: [transform] raises on a row of 18. *)
Definition narrow_scaler : model :=
  {| class_name := "StandardScaler";
     transform :=
       Some (fun _ =>
               Raise (Exc ValueError
                 "X has 18 features, but StandardScaler is expecting 17 features as input."));
     predict := None;
     predict_proba := None;
     generate := None |}.

End Samples.

(* ================================================================== *)
(** * Properties *)

Import PyFloat Py Runtime.
Local Open Scope py_scope.
Local Open Scope list_scope.

(** ** Floats and their text *)

(** Reading and printing agree with the interpreter on the usual probes:
    shortest round-trip digits, the switch to exponent notation, underscores,
    surrounding whitespace, overflow to infinity and rejected texts. *)
Example float_text_samples :
  map (fun s => option_map repr (of_string s))
      ["0.1"; "2"; "1e22"; "1e16"; "1e15"; "5e-324"; "0.00001";
       "9007199254740993"; " 1_000.5 "; "1e400"; "-Infinity"; "NaN";
       "1__0"; "1e"; "."; "abc"; ""]%string
  = [Some "0.1"; Some "2.0"; Some "1e+22"; Some "1e+16";
     Some "1000000000000000.0"; Some "5e-324"; Some "1e-05";
     Some "9007199254740992.0"; Some "1000.5"; Some "inf"; Some "-inf";
     Some "nan"; None; None; None; None; None]%string.
Proof. vm_compute. reflexivity. Qed.

(** [round] and [format] round the exact binary value, ties to even:
    [round(2.675, 2)] is 2.67, ['%.1f' % 0.25] is 0.2, and 0.1 + 0.2 prints
    as 0.30000000000000004. *)
Example float_rounding_samples :
  round (Samples.decimal 2675 (-3)) 2 = Samples.decimal 267 (-2)
  /\ format_fixed (Samples.decimal 25 (-2)) 1 = "0.2"%string
  /\ format_fixed (S754_finite true 1 (-10)) 1 = "-0.0"%string
  /\ repr (SFadd prec emax (Samples.decimal 1 (-1)) (Samples.decimal 2 (-1)))
     = "0.30000000000000004"%string.
Proof. repeat split; vm_compute; reflexivity. Qed.

(** ** Dictionaries *)

Section DictFacts.
Context {V : Type}.
Implicit Types (d : str_dict V) (k : string) (v : V).

Lemma get_In d k v :
  wf d -> (get String.eqb k d = Some v <-> In (k, v) d).
Proof.
  unfold wf. induction d as [|[k' v'] d IH]; simpl; intros Hnd.
  - split; [discriminate | contradiction].
  - inversion Hnd as [|? ? Hnotin Hnd']; subst.
    destruct (String.eqb_spec k k') as [->|Hne].
    + split.
      * intros [= ->]. now left.
      * intros [[= ->]|Hin]; [reflexivity|].
        exfalso. apply Hnotin.
        change k' with (fst (k', v)). now apply in_map.
    + rewrite (IH Hnd'). split.
      * now right.
      * intros [[= -> _]|Hin]; [congruence | assumption].
Qed.

Lemma wf_permutation d d' : wf d -> Permutation d d' -> wf d'.
Proof.
  unfold wf. intros Hnd Hp.
  eapply Permutation_NoDup; [|exact Hnd].
  now apply Permutation_map.
Qed.

(** A dictionary answers lookups the same way whatever the order its items
    were inserted in. *)
Lemma get_permutation d d' k :
  wf d -> Permutation d d' ->
  get String.eqb k d' = get String.eqb k d.
Proof.
  intros Hwf Hp.
  pose proof (wf_permutation _ _ Hwf Hp) as Hwf'.
  destruct (get String.eqb k d) as [v|] eqn:Hd.
  - apply (get_In _ _ _ Hwf'). eapply Permutation_in; [exact Hp|].
    now apply (get_In _ _ _ Hwf).
  - destruct (get String.eqb k d') as [v'|] eqn:Hd'; [|reflexivity].
    apply (get_In _ _ _ Hwf') in Hd'.
    apply (Permutation_in _ (Permutation_sym Hp)) in Hd'.
    apply (get_In _ _ _ Hwf) in Hd'. congruence.
Qed.
End DictFacts.

(** ** The feature builder *)

Section FeatureBuilder.
Import Persona.
Variable d : str_dict value.

Lemma coercible_row keys :
  Forall (coercible d) keys -> exists row, Forall2 (coerces d) keys row.
Proof.
  induction 1 as [|key keys [x Hx] _ [row IH]].
  - exists []. constructor.
  - exists (x :: row). now constructor.
Qed.

(** The loop runs through a prefix of coercible keys without an event and
    appends their floats in order. *)
Lemma collect_features_prefix pre row :
  Forall2 (coerces d) pre row ->
  forall rest acc t,
    collect_features d (pre ++ rest) acc t
    = collect_features d rest (acc ++ row) t.
Proof.
  induction 1 as [|key x pre row (v & Hget & Hfloat) _ IH];
    intros rest acc t; simpl.
  - now rewrite app_nil_r.
  - rewrite Hget. unfold bind at 1, try_except, lift. rewrite Hfloat.
    rewrite IH, <- app_assoc. reflexivity.
Qed.

Lemma collect_features_ok keys row :
  Forall2 (coerces d) keys row ->
  forall acc, returns (collect_features d keys acc) (Ok (acc ++ row)).
Proof.
  intros H acc t.
  rewrite <- (app_nil_r keys), (collect_features_prefix _ _ H).
  reflexivity.
Qed.

Lemma extract_features_array_ok row :
  Forall2 (coerces d) feature_order row ->
  returns (extract_features_array d) (Ok [row]).
Proof.
  intros H t. unfold extract_features_array, try_except, bind.
  rewrite (collect_features_ok _ _ H). reflexivity.
Qed.

Lemma collect_features_ext d' keys :
  (forall key, In key keys ->
     get String.eqb key d' = get String.eqb key d) ->
  forall acc t,
    collect_features d' keys acc t = collect_features d keys acc t.
Proof.
  induction keys as [|key keys IH]; simpl; intros Hagree acc t.
  - reflexivity.
  - rewrite (Hagree key) by now left.
    destruct (get String.eqb key d) as [v|]; [|reflexivity].
    unfold bind.
    destruct (try_except _ _ t) as [[x|e] t']; [|reflexivity].
    apply IH. intros k Hk. apply Hagree. now right.
Qed.

Lemma extract_features_array_ext d' :
  (forall key, In key feature_order ->
     get String.eqb key d' = get String.eqb key d) ->
  forall t, extract_features_array d' t = extract_features_array d t.
Proof.
  intros Hagree t. unfold extract_features_array, try_except, bind.
  now rewrite (collect_features_ext _ _ Hagree).
Qed.

Lemma Forall2_length_eq {A B} (R : A -> B -> Prop) l l' :
  Forall2 R l l' -> List.length l' = List.length l.
Proof. induction 1; simpl; congruence. Qed.

End FeatureBuilder.

(** C2. A mapping that holds a value [float()] accepts at each of the 18
    required keys is turned, without any event, into one row of 18 floats:
    the coerced values in the order of [feature_order].  The row is the same
    for every mapping that agrees with it on the required keys (other keys are
    ignored) and for every reordering of its items. *)
Theorem extract_features_array_valid (d : str_dict value) :
  Forall (Persona.coercible d) Persona.feature_order ->
  exists row : list float64,
    returns (Persona.extract_features_array d) (Ok [row])
    /\ shape [row] = (1%nat, 18%nat)
    /\ Forall2 (Persona.coerces d) Persona.feature_order row
    /\ (forall d',
          (forall key, In key Persona.feature_order ->
             get String.eqb key d' = get String.eqb key d) ->
          returns (Persona.extract_features_array d') (Ok [row]))
    /\ (forall d',
          wf d -> Permutation d d' ->
          returns (Persona.extract_features_array d') (Ok [row])).
Proof.
  intros Hvalid.
  destruct (coercible_row d _ Hvalid) as [row Hrow].
  pose proof (extract_features_array_ok d row Hrow) as Hok.
  exists row. repeat split.
  - exact Hok.
  - unfold shape. simpl List.length.
    now rewrite (Forall2_length_eq _ _ _ Hrow).
  - exact Hrow.
  - intros d' Hagree t. now rewrite (extract_features_array_ext d d' Hagree).
  - intros d' Hwf Hperm t.
    rewrite (extract_features_array_ext d d'); [apply Hok|].
    intros key _. now apply get_permutation.
Qed.

Lemma valid_features_coercible :
  Forall (Persona.coercible Samples.valid_features) Persona.feature_order.
Proof.
  repeat constructor; eexists; eexists; (split; [reflexivity|]);
    vm_compute; reflexivity.
Defined.

Lemma extract_features_array_valid_witness :
  Forall (Persona.coercible Samples.valid_features) Persona.feature_order
  /\ exists row : list float64,
       returns (Persona.extract_features_array Samples.valid_features)
               (Ok [row])
       /\ shape [row] = (1%nat, 18%nat)
       /\ Forall2 (Persona.coerces Samples.valid_features)
                  Persona.feature_order row
       /\ (forall d',
             (forall key, In key Persona.feature_order ->
                get String.eqb key d'
                = get String.eqb key Samples.valid_features) ->
             returns (Persona.extract_features_array d') (Ok [row]))
       /\ (forall d',
             wf Samples.valid_features ->
             Permutation Samples.valid_features d' ->
             returns (Persona.extract_features_array d') (Ok [row])).
Proof.
  split.
  - exact valid_features_coercible.
  - exact (extract_features_array_valid Samples.valid_features
             valid_features_coercible).
Defined.

(** The sample mapping and its reordering with extra keys give the same
    row. *)
Example extract_features_array_shuffled :
  Persona.extract_features_array Samples.shuffled_features []
  = Persona.extract_features_array Samples.valid_features []
  /\ fst (Persona.extract_features_array Samples.valid_features [])
     = Ok Samples.valid_array.
Proof. split; vm_compute; reflexivity. Qed.

(** ** Validation errors *)

Ltac norm_trace := repeat rewrite <- app_assoc; simpl app.

Section Validation.
Import Persona.
Variables (E : env) (request : PersonaFeaturesRequest).
Variables (model scaler : Runtime.model).
Hypothesis Hmodel : get_model E "persona_model" = Some model.
Hypothesis Hscaler : get_model E "persona_scaler" = Some scaler.

(** A [ValueError] of the feature builder leaves [predict_persona] as a 422
    with the same text, logged once, before any model method is called. *)
Lemma predict_persona_invalid text :
  returns (extract_features_array (features request))
          (Raise (Exc ValueError text)) ->
  forall t,
    predict_persona E request t
    = (Raise (HTTPException 422 text),
       t ++ [Log INFO MsgPersonaRequest; GetModel "persona_model";
             GetModel "persona_scaler";
             Log ERROR (MsgFeatureValidationFailed text)]).
Proof.
  intros Hraise t.
  unfold predict_persona, try_except, bind, logger, load, emit, ret, raise.
  simpl. rewrite Hmodel, Hscaler, Hraise. simpl.
  norm_trace. reflexivity.
Qed.

(** The builder stops at the first key that is absent or whose value
    [float()] rejects, with a [ValueError] and no event. *)
Lemma extract_features_array_stops pre key post :
  feature_order = pre ++ key :: post ->
  Forall (coercible (features request)) pre ->
  match get String.eqb key (features request) with
  | None =>
      returns (extract_features_array (features request))
              (Raise (Exc ValueError (missing_feature key)))
  | Some value =>
      match py_float value with
      | Ok _ => True
      | Raise (Exc ValueError _) | Raise (Exc TypeError _) =>
          returns (extract_features_array (features request))
                  (Raise (Exc ValueError (not_numeric key value)))
      | Raise e =>
          returns (extract_features_array (features request))
                  (Raise (Exc ValueError
                            ("Error processing features: " ++ exc_str e)))
      end
  end.
Proof.
  intros Horder Hpre.
  destruct (coercible_row _ _ Hpre) as [row Hrow].
  assert (Hrun : forall t,
    extract_features_array (features request) t
    = try_except
        (bind (collect_features (features request) (key :: post) row)
              (fun features => ret (reshape_row features)))
        (fun e =>
           match e with
           | Exc ValueError _ => None
           | _ => Some (raise (Exc ValueError
                                 ("Error processing features: "
                                  ++ exc_str e)))
           end) t).
  { intros t. unfold extract_features_array, try_except, bind.
    now rewrite Horder, (collect_features_prefix _ _ _ Hrow). }
  destruct (get String.eqb key (features request)) as [value|] eqn:Hget.
  - destruct (py_float value) as [x|e] eqn:Hfloat; [exact I|].
    destruct e as [[]|]; intros t; rewrite Hrun;
      unfold try_except, bind, lift; simpl; rewrite Hget;
      unfold try_except, bind, lift; rewrite Hfloat; reflexivity.
  - intros t. rewrite Hrun. unfold try_except, bind. simpl.
    rewrite Hget. reflexivity.
Qed.

End Validation.

(** C3, as the code has it.  The required keys are visited in the order of
    [feature_order]; at the first one that is absent the builder raises the
    error naming it; at the first one whose value [float()] rejects with a
    [ValueError] or a [TypeError] it raises the error naming the key, the
    numeric requirement, and the type and text of the value; when [float()]
    fails otherwise (an [int] beyond the float range) the error is the general
    one and shows the text of that failure.  Each is a [ValueError], and
    [predict_persona] with both models loaded answers 422 with the same
    text. *)
Theorem extract_features_array_first_offender
    (E : env) (request : Persona.PersonaFeaturesRequest)
    (model scaler : Runtime.model) (pre post : list string) (key : string) :
  Persona.feature_order = pre ++ key :: post ->
  Forall (Persona.coercible (Persona.features request)) pre ->
  get_model E "persona_model" = Some model ->
  get_model E "persona_scaler" = Some scaler ->
  let fails_with (text : string) : Prop :=
    returns (Persona.extract_features_array (Persona.features request))
            (Raise (Exc ValueError text))
    /\ forall t,
         fst (Persona.predict_persona E request t)
         = Raise (HTTPException 422 text) in
  match get String.eqb key (Persona.features request) with
  | None => fails_with ("Missing required feature: '" ++ key ++ "'")%string
  | Some value =>
      match py_float value with
      | Ok _ => True
      | Raise (Exc ValueError _) | Raise (Exc TypeError _) =>
          fails_with ("Feature '" ++ key ++ "' must be numeric. Got "
                      ++ type_name_of value ++ ": '" ++ py_str value
                      ++ "'")%string
      | Raise e =>
          fails_with ("Error processing features: " ++ exc_str e)%string
      end
  end.
Proof.
  intros Horder Hpre Hmodel Hscaler fails_with.
  pose proof (extract_features_array_stops request pre key post Horder Hpre)
    as Hstop.
  assert (Hfails : forall text,
    returns (Persona.extract_features_array (Persona.features request))
            (Raise (Exc ValueError text)) -> fails_with text).
  { intros text Hraise. split; [exact Hraise|]. intros t.
    now rewrite (predict_persona_invalid E request model scaler
                   Hmodel Hscaler text Hraise). }
  destruct (get String.eqb key (Persona.features request)) as [value|].
  - destruct (py_float value) as [x|[[]|]]; try exact I;
      apply Hfails; exact Hstop.
  - apply Hfails; exact Hstop.
Qed.

Lemma extract_features_array_first_offender_witness :
  let request :=
    Samples.persona_request
      (Samples.with_feature "consistency_ratio" (PyStr "abc")) in
  let pre := ["total_activities"; "completion_rate"]%string in
  let post := skipn 3 Persona.feature_order in
  Persona.feature_order = pre ++ "consistency_ratio"%string :: post
  /\ Forall (Persona.coercible (Persona.features request)) pre
  /\ get_model Samples.service "persona_model"
     = Some (Samples.classifier (PredInt 0) (Some Samples.probabilities))
  /\ get_model Samples.service "persona_scaler" = Some Samples.StandardScaler
  /\ (returns (Persona.extract_features_array (Persona.features request))
        (Raise (Exc ValueError
           "Feature 'consistency_ratio' must be numeric. Got str: 'abc'"))
      /\ forall t,
           fst (Persona.predict_persona Samples.service request t)
           = Raise (HTTPException 422
               "Feature 'consistency_ratio' must be numeric. Got str: 'abc'")).
Proof.
  intros request pre post.
  assert (Hpre : Forall (Persona.coercible (Persona.features request)) pre).
  { repeat constructor; eexists; eexists; (split; [reflexivity|]);
      vm_compute; reflexivity. }
  split; [reflexivity|]. split; [exact Hpre|].
  split; [reflexivity|]. split; [reflexivity|].
  exact (extract_features_array_first_offender
           Samples.service request _ _ pre post "consistency_ratio"
           eq_refl Hpre eq_refl eq_refl).
Defined.

(** A mapping without one required key, and one with [None] at a key. *)
Example extract_features_array_missing_and_none :
  fst (Persona.extract_features_array
         (Samples.without_feature "focus_score") [])
  = Raise (Exc ValueError "Missing required feature: 'focus_score'")
  /\ fst (Persona.extract_features_array
            (Samples.with_feature "streak_days" PyNone) [])
     = Raise (Exc ValueError
                "Feature 'streak_days' must be numeric. Got NoneType: 'None'").
Proof. split; vm_compute; reflexivity. Qed.

(** C3 as worded fails on an integer too large for a float: the key is
    present, [float()] rejects its value, and the [ValueError] raised, which
    [predict_persona] returns as the 422 text, names neither the key nor the
    value. *)
Lemma extract_features_array_overflow_error_unnamed :
  let value := PyInt (10 ^ 400) in
  let d := Samples.with_feature "total_activities" value in
  let text :=
    "Error processing features: int too large to convert to float"%string in
  get String.eqb "total_activities" d = Some value
  /\ py_float value
     = Raise (Exc OverflowError "int too large to convert to float")
  /\ Persona.extract_features_array d [] = (Raise (Exc ValueError text), [])
  /\ fst (Persona.predict_persona Samples.service
            (Samples.persona_request d) [])
     = Raise (HTTPException 422 text)
  /\ text <> Persona.not_numeric "total_activities" value
  /\ str_contains "total_activities" text = false.
Proof.
  cbv zeta. repeat apply conj; try (vm_compute; reflexivity).
  vm_compute. discriminate.
Qed.

(** ** What the builder accepts *)

Section Acceptance.
Import Persona.
Variable d : str_dict value.

Lemma collect_features_accepts keys :
  forall acc t r t',
    collect_features d keys acc t = (Ok r, t') ->
    Forall (coercible d) keys.
Proof.
  induction keys as [|key keys IH]; simpl; intros acc t r t' Hrun.
  - constructor.
  - destruct (get String.eqb key d) as [v|] eqn:Hget; [|discriminate].
    unfold bind at 1, try_except, lift in Hrun.
    destruct (py_float v) as [x|e] eqn:Hfloat.
    + constructor; [|eapply IH; exact Hrun].
      exists x, v. now split.
    + destruct e as [[]|]; discriminate.
Qed.

Lemma extract_features_array_accepts_only arr t t' :
  extract_features_array d t = (Ok arr, t') ->
  Forall (coercible d) feature_order.
Proof.
  unfold extract_features_array, try_except, bind. intros Hrun.
  destruct (collect_features d feature_order [] t) as [[r|e] t0] eqn:Hloop.
  - eapply collect_features_accepts; exact Hloop.
  - destruct e as [[]|]; discriminate.
Qed.

Lemma coerces_functional key x y :
  coerces d key x -> coerces d key y -> x = y.
Proof. intros (v & Hv & Hx) (w & Hw & Hy). congruence. Qed.

Lemma Forall2_coerces_nth keys row :
  Forall2 (coerces d) keys row ->
  forall i key x,
    nth_error keys i = Some key -> coerces d key x ->
    nth_error row i = Some x.
Proof.
  induction 1 as [|k y keys row Hk _ IH]; intros [|i] key x Hnth Hx;
    simpl in *; try discriminate.
  - injection Hnth as ->. f_equal. eapply coerces_functional; eassumption.
  - eapply IH; eassumption.
Qed.

End Acceptance.

(** C10. The builder succeeds on exactly the mappings that hold, at each
    required key, a value [float()] accepts; the float it yields for a key is
    the entry at the position of that key.  [float()] accepts a [bool]
    ([True] is 1.0, [False] is 0.0) and the strings "nan" and "inf", which
    become a NaN and an infinity in the row. *)
Theorem extract_features_array_accepts_what_float_accepts :
  (forall d,
     (exists arr, returns (Persona.extract_features_array d) (Ok arr))
     <-> Forall (Persona.coercible d) Persona.feature_order)
  /\ (forall d i key v x,
        nth_error Persona.feature_order i = Some key ->
        get String.eqb key d = Some v ->
        py_float v = Ok x ->
        (forall k, In k Persona.feature_order -> k <> key ->
           Persona.coercible d k) ->
        exists row,
          returns (Persona.extract_features_array d) (Ok [row])
          /\ nth_error row i = Some x)
  /\ py_float (PyBool true) = Ok (of_Z 1)
  /\ py_float (PyBool false) = Ok (of_Z 0)
  /\ py_float (PyStr "nan") = Ok nan
  /\ py_float (PyStr "inf") = Ok infinity
  /\ is_finite nan = false
  /\ is_finite infinity = false.
Proof.
  split; [|split].
  - intros d. split.
    + intros [arr Harr].
      eapply extract_features_array_accepts_only. apply (Harr []).
    + intros Hall. destruct (coercible_row d _ Hall) as [row Hrow].
      exists [row]. now apply extract_features_array_ok.
  - intros d i key v x Hnth Hget Hfloat Hothers.
    assert (Hkey : Persona.coerces d key x) by (exists v; now split).
    assert (Hall : Forall (Persona.coercible d) Persona.feature_order).
    { apply Forall_forall. intros k Hk.
      destruct (string_dec k key) as [->|Hne].
      - now exists x.
      - now apply Hothers. }
    destruct (coercible_row d _ Hall) as [row Hrow].
    exists row. split.
    + now apply extract_features_array_ok.
    + eapply Forall2_coerces_nth; eassumption.
  - repeat split; vm_compute; reflexivity.
Qed.

Lemma extract_features_array_accepts_witness :
  let d := Samples.with_feature "peak_hour" (PyStr "nan") in
  nth_error Persona.feature_order 8 = Some "peak_hour"%string
  /\ get String.eqb "peak_hour" d = Some (PyStr "nan")
  /\ py_float (PyStr "nan") = Ok nan
  /\ (forall k, In k Persona.feature_order -> k <> "peak_hour"%string ->
        Persona.coercible d k)
  /\ exists row,
       returns (Persona.extract_features_array d) (Ok [row])
       /\ nth_error row 8 = Some nan.
Proof.
  intros d.
  assert (Hothers : forall k, In k Persona.feature_order ->
            k <> "peak_hour"%string -> Persona.coercible d k).
  { intros k Hk Hne. simpl in Hk.
    repeat (destruct Hk as [<-|Hk];
            [try (exfalso; apply Hne; reflexivity);
             eexists; eexists; (split; [reflexivity|]);
             vm_compute; reflexivity|]).
    contradiction. }
  split; [reflexivity|]. split; [reflexivity|]. split; [reflexivity|].
  split; [exact Hothers|].
  exact (proj1 (proj2 extract_features_array_accepts_what_float_accepts)
           d 8%nat "peak_hour"%string (PyStr "nan") nan
           eq_refl eq_refl eq_refl Hothers).
Defined.

(** A [bool], "nan" and "inf" at a required key, run through the service. *)
Example extract_features_array_bool_nan_inf :
  nth_error
    (List.concat (match fst (Persona.extract_features_array
                          (Samples.with_feature "pomodoro_usage_rate"
                             (PyBool false)) []) with
             | Ok arr => arr | Raise _ => [] end)) 16
  = Some (S754_zero false)
  /\ nth_error
       (List.concat (match fst (Persona.extract_features_array
                             (Samples.with_feature "focus_score"
                                (PyStr "inf")) []) with
                | Ok arr => arr | Raise _ => [] end)) 12
     = Some (S754_infinity false).
Proof. split; vm_compute; reflexivity. Qed.

(** A request with "nan" at a required key goes through the whole handler:
    the NaN reaches the scaler and the model. *)
Example predict_persona_accepts_nan :
  match Persona.predict_persona Samples.service
          (Samples.persona_request
             (Samples.with_feature "total_activities" (PyStr "nan"))) [] with
  | (Ok response, events) =>
      Persona.persona response = "consistent_learner"%string
      /\ In (CallTransform
               [S754_nan :: tl (hd [] Samples.valid_array)]) events
  | (Raise _, _) => False
  end.
Proof.
  vm_compute. split; [reflexivity|].
  right; right; right; right. now left.
Qed.

(** ** Label and confidence of a prediction *)

Section Prediction.
Import Persona.
Variables (E : env) (request : PersonaFeaturesRequest).
Variables (model scaler : Runtime.model).
Variables (arr scaled : ndarray).
Variables (f : ndarray -> result ndarray).
Variables (p : ndarray -> result (list prediction_value)).
Variables (v : prediction_value) (rest : list prediction_value).
Hypothesis Hmodel : get_model E "persona_model" = Some model.
Hypothesis Hscaler : get_model E "persona_scaler" = Some scaler.
Hypothesis Hfeatures :
  returns (extract_features_array (features request)) (Ok arr).
Hypothesis Htransform : transform scaler = Some f.
Hypothesis Hscaled : f arr = Ok scaled.
Hypothesis Hpredict : predict model = Some p.
Hypothesis Hprediction : p scaled = Ok (v :: rest).

(** With both models loaded, valid features and a prediction, the handler
    answers the label of the first prediction and the rounded confidence. *)
Lemma predict_persona_ok t c t' :
  persona_confidence model scaled v
    (t ++ prediction_events arr scaled (v :: rest) v) = (Ok c, t') ->
  predict_persona E request t
  = (Ok {| persona := persona_label v;
           confidence := round c 4;
           model_version := "1.0.0";
           predicted_at := utcnow E |},
     t' ++ [Log INFO (MsgPrediction (persona_label v) (format_fixed c 2))]).
Proof.
  intros Hconf.
  unfold predict_persona, try_except at 1, bind, logger, load, emit, ret.
  simpl. rewrite Hmodel, Hscaler. unfold try_except at 1.
  rewrite Hfeatures. unfold call_transform, call_predict.
  rewrite Htransform, Hpredict. unfold bind, emit, lift.
  rewrite Hscaled, Hprediction. unfold np_getitem. simpl.
  norm_trace.
  change (t ++ _) with (t ++ prediction_events arr scaled (v :: rest) v).
  rewrite Hconf. reflexivity.
Qed.

End Prediction.

(** The confidence never fails: it is the probability the prediction selects,
    or 1.0 with a warning when the [try] block raises. *)
Lemma persona_confidence_cases model x v t :
  let warning := Log WARNING MsgNoPredictProba in
  let selected (row : list float64) : option float64 :=
    match v with
    | PredInt n => getitem row n
    | _ => match np_max row with Ok c => Some c | Raise _ => None end
    end in
  Persona.persona_confidence model x v t
  = match predict_proba model with
    | None => (Ok (of_Z 1), t ++ [warning])
    | Some g =>
        match g x with
        | Raise _ => (Ok (of_Z 1), t ++ [CallPredictProba x; warning])
        | Ok probabilities =>
            match getitem probabilities 0 with
            | None => (Ok (of_Z 1), t ++ [CallPredictProba x; warning])
            | Some row =>
                match selected row with
                | Some c => (Ok c, t ++ [CallPredictProba x])
                | None => (Ok (of_Z 1), t ++ [CallPredictProba x; warning])
                end
            end
        end
    end.
Proof.
  intros warning selected.
  unfold Persona.persona_confidence, try_except, call_predict_proba.
  destruct (predict_proba model) as [g|]; simpl.
  - unfold bind at 1, emit, lift, bind at 1. simpl.
    destruct (g x) as [probabilities|e]; simpl.
    + unfold bind, np_getitem, logger, emit, ret, raise.
      destruct (getitem probabilities 0) as [row|]; simpl.
      * subst selected. destruct v as [n|s|s]; simpl.
        -- destruct (getitem row n); simpl; norm_trace; reflexivity.
        -- unfold lift. destruct (np_max row); simpl; norm_trace; reflexivity.
        -- unfold lift. destruct (np_max row); simpl; norm_trace; reflexivity.
      * norm_trace. reflexivity.
    + unfold bind, logger, emit, ret. simpl. norm_trace. reflexivity.
  - unfold attribute_error, raise, bind, logger, emit, ret. reflexivity.
Qed.

(** The default confidence is not changed by the rounding of the response. *)
Lemma round_default_confidence : round (of_Z 1) 4 = of_Z 1.
Proof. vm_compute. reflexivity. Qed.

Ltac warned := rewrite ?in_app_iff; simpl; intuition (discriminate || auto).

(** C4, as the code has it.  When both models are loaded, the features are
    valid and the model predicts, the response is returned and carries the
    confidence rounded to four decimals: the probability at the index of an
    integer prediction, the largest probability for any other prediction, and
    1.0 with a logged warning when [predict_proba] is missing or raises, or
    when the distribution has no entry to select. *)
Theorem predict_persona_confidence
    (E : env) (request : Persona.PersonaFeaturesRequest)
    (model scaler : Runtime.model) (arr scaled : ndarray)
    (f : ndarray -> result ndarray)
    (p : ndarray -> result (list prediction_value))
    (v : prediction_value) (rest : list prediction_value) :
  get_model E "persona_model" = Some model ->
  get_model E "persona_scaler" = Some scaler ->
  returns (Persona.extract_features_array (Persona.features request))
          (Ok arr) ->
  transform scaler = Some f -> f arr = Ok scaled ->
  predict model = Some p -> p scaled = Ok (v :: rest) ->
  forall t, exists (c : float64) (events : trace),
    Persona.predict_persona E request t
    = (Ok {| Persona.persona := Persona.persona_label v;
             Persona.confidence := round c 4;
             Persona.model_version := "1.0.0";
             Persona.predicted_at := utcnow E |},
       t ++ events)
    /\ let warned := In (Log WARNING MsgNoPredictProba) events in
       let defaulted := c = of_Z 1 /\ round c 4 = of_Z 1 /\ warned in
       match predict_proba model with
       | None => defaulted
       | Some g =>
           match g scaled with
           | Raise _ => defaulted
           | Ok probabilities =>
               match getitem probabilities 0 with
               | None => defaulted
               | Some distribution =>
                   match v with
                   | PredInt n =>
                       match getitem distribution n with
                       | Some probability => c = probability /\ ~ warned
                       | None => defaulted
                       end
                   | _ =>
                       match np_max distribution with
                       | Ok largest => c = largest /\ ~ warned
                       | Raise _ => defaulted
                       end
                   end
               end
           end
       end.
Proof.
  intros Hmodel Hscaler Hfeatures Htransform Hscaled Hpredict Hprediction t.
  pose proof (predict_persona_ok E request model scaler arr scaled f p v rest
                Hmodel Hscaler Hfeatures Htransform Hscaled Hpredict
                Hprediction t) as Hok.
  rewrite persona_confidence_cases in Hok. cbv zeta in Hok. cbv zeta.
  unfold Persona.prediction_events in Hok.
  destruct (predict_proba model) as [g|];
    [destruct (g scaled) as [probabilities|e];
     [destruct (getitem probabilities 0) as [distribution|];
      [destruct v as [n|s|s];
       [destruct (getitem distribution n)
       |destruct (np_max distribution)
       |destruct (np_max distribution)]|]|]|];
    specialize (Hok _ _ eq_refl); rewrite <- !app_assoc in Hok;
    eexists; eexists; (split; [exact Hok|]);
    repeat apply conj;
    lazymatch goal with
    | |- round _ _ = _ => exact round_default_confidence
    | |- _ = _ => reflexivity
    | |- _ => warned
    end.
Qed.

Lemma valid_features_array :
  returns (Persona.extract_features_array Samples.valid_features)
          (Ok Samples.valid_array).
Proof. intros t. vm_compute. reflexivity. Defined.

Lemma predict_persona_confidence_witness :
  let request := Samples.persona_request Samples.valid_features in
  let model := Samples.classifier (PredInt 0) (Some Samples.probabilities) in
  get_model Samples.service "persona_model" = Some model
  /\ get_model Samples.service "persona_scaler" = Some Samples.StandardScaler
  /\ returns (Persona.extract_features_array (Persona.features request))
             (Ok Samples.valid_array)
  /\ transform Samples.StandardScaler = Some (fun x => Ok x)
  /\ Ok Samples.valid_array = Ok Samples.valid_array :> result ndarray
  /\ predict model = Some (fun _ => Ok [PredInt 0])
  /\ Ok [PredInt 0] = Ok [PredInt 0] :> result (list prediction_value)
  /\ exists (c : float64) (events : trace),
       Persona.predict_persona Samples.service request []
       = (Ok {| Persona.persona := "consistent_learner";
                Persona.confidence := round c 4;
                Persona.model_version := "1.0.0";
                Persona.predicted_at := utcnow Samples.service |},
          [] ++ events)
       /\ c = Samples.decimal 9 (-1)
       /\ ~ In (Log WARNING MsgNoPredictProba) events.
Proof.
  intros request model.
  repeat (split; [reflexivity || exact valid_features_array|]).
  exact (predict_persona_confidence Samples.service request model
           Samples.StandardScaler Samples.valid_array Samples.valid_array
           (fun x => Ok x) (fun _ => Ok [PredInt 0]) (PredInt 0) []
           eq_refl eq_refl valid_features_array eq_refl eq_refl eq_refl
           eq_refl []).
Defined.

(** The sample service end to end: class 0 with probability 0.9 is the
    consistent learner with confidence 0.9; without [predict_proba] the
    confidence is 1.0. *)
Example predict_persona_sample :
  fst (Persona.predict_persona Samples.service
         (Samples.persona_request Samples.valid_features) [])
  = Ok {| Persona.persona := "consistent_learner";
          Persona.confidence := Samples.decimal 9 (-1);
          Persona.model_version := "1.0.0";
          Persona.predicted_at := 1762182000 |}
  /\ fst (Persona.predict_persona
            (Samples.registry (Some (Samples.classifier (PredInt 0) None))
               (Some Samples.StandardScaler) None)
            (Samples.persona_request Samples.valid_features) [])
     = Ok {| Persona.persona := "consistent_learner";
             Persona.confidence := Samples.decimal 1 0;
             Persona.model_version := "1.0.0";
             Persona.predicted_at := 1762182000 |}.
Proof. split; vm_compute; reflexivity. Qed.

(** C4 as worded fails on a probability with more than four decimals: the
    model predicts class 0 with probability 0.123456, and the confidence of
    the response is 0.1235. *)
Lemma predict_persona_confidence_is_rounded :
  let probability := Samples.decimal 123456 (-6) in
  let distribution := [probability; Samples.decimal 876544 (-6)] in
  let E :=
    Samples.registry
      (Some (Samples.classifier (PredInt 0) (Some distribution)))
      (Some Samples.StandardScaler) None in
  let request := Samples.persona_request Samples.valid_features in
  getitem distribution 0 = Some probability
  /\ exists response,
       fst (Persona.predict_persona E request []) = Ok response
       /\ Persona.confidence response = Samples.decimal 1235 (-4)
       /\ Persona.confidence response <> probability.
Proof.
  cbv zeta. split; [reflexivity|].
  eexists. split; [vm_compute; reflexivity|].
  split; [vm_compute; reflexivity|].
  vm_compute. discriminate.
Qed.

(** ** Label resolution *)

(** C7. An integer prediction is looked up in the four-entry table and any
    other index is "unknown"; a string prediction is kept when it is one of
    the four labels and is "unknown" otherwise. *)
Theorem persona_label_int_str :
  (forall n : Z,
     Persona.persona_label (PredInt n)
     = match n with
       | 0 => "consistent_learner"
       | 1 => "fast_learner"
       | 2 => "new_learner"
       | 3 => "reflective_learner"
       | _ => "unknown"
       end%Z%string)
  /\ (forall s : string,
        let canonical :=
          ["consistent_learner"; "fast_learner"; "new_learner";
           "reflective_learner"]%string in
        (In s canonical -> Persona.persona_label (PredStr s) = s)
        /\ (~ In s canonical ->
            Persona.persona_label (PredStr s) = "unknown"%string))
  /\ Persona.persona_label (PredInt 1) = "fast_learner"%string
  /\ Persona.persona_label (PredInt 99) = "unknown"%string
  /\ Persona.persona_label (PredStr "new_learner") = "new_learner"%string
  /\ Persona.persona_label (PredStr "bogus") = "unknown"%string.
Proof.
  split; [|split; [|repeat split]].
  - intros n. unfold Persona.persona_label, get_default. simpl.
    destruct n as [|[[[]|[]|]|[[]|[]|]|]|]; reflexivity.
  - intros s canonical. unfold Persona.persona_label, contains. simpl.
    repeat match goal with
           | |- context [String.eqb s ?l] =>
               destruct (String.eqb_spec s l) as [->|?]
           end; subst canonical; simpl; split; intros H;
      try reflexivity; try (exfalso; apply H; tauto).
    exfalso. intuition congruence.
Qed.

Lemma persona_label_int_str_witness :
  In "new_learner"%string
     ["consistent_learner"; "fast_learner"; "new_learner";
      "reflective_learner"]%string
  /\ Persona.persona_label (PredStr "new_learner") = "new_learner"%string.
Proof.
  split.
  - simpl. tauto.
  - apply (proj1 (proj2 persona_label_int_str) "new_learner"%string).
    simpl. tauto.
Defined.

(** The persona a response carries is the label of the first prediction. *)
Lemma predict_persona_returns_label
    (E : env) (request : Persona.PersonaFeaturesRequest) t response t' :
  Persona.predict_persona E request t = (Ok response, t') ->
  exists prediction v,
    getitem prediction 0 = Some v
    /\ Persona.persona response = Persona.persona_label v.
Proof.
  unfold Persona.predict_persona, try_except at 1, bind at 1.
  unfold logger, emit, load, bind at 1, bind at 1, bind at 1, ret. simpl.
  destruct (get_model E "persona_model") as [model|];
    [destruct (get_model E "persona_scaler") as [scaler|]|];
    try (unfold raise; discriminate).
  unfold bind at 1.
  destruct (try_except _ _ _) as [[arr|e] t1];
    [|destruct e as [[]|]; unfold bind; simpl; discriminate].
  unfold bind at 1, bind at 1.
  destruct (call_transform scaler arr _) as [[scaled|e] t2];
    [|destruct e as [[]|]; unfold bind; simpl; discriminate].
  unfold bind at 1.
  destruct (call_predict model scaled t2) as [[prediction|e] t3];
    [|destruct e as [[]|]; unfold bind; simpl; discriminate].
  unfold bind at 1, np_getitem at 1.
  destruct (getitem prediction 0) as [v|] eqn:Hv;
    [|unfold raise, bind; simpl; discriminate].
  unfold ret at 1, bind at 1, bind at 1. simpl.
  unfold np_getitem at 1. rewrite Hv. unfold ret at 1, bind at 1.
  destruct (Persona.persona_confidence model scaled v _) as [[c|e] t4];
    [|destruct e as [[]|]; unfold bind; simpl; discriminate].
  unfold bind, ret. simpl. intros [= <- _].
  exists prediction, v. split; [exact Hv|reflexivity].
Qed.

(** C1 at a float label.  A model trained on float class labels predicts
    [numpy.float64(2.0)]; neither [isinstance] test holds, and the persona of
    the response is the text "2.0", which is neither "unknown" nor a persona
    label. *)
Theorem persona_label_other_type_unvalidated :
  (forall text, Persona.persona_label (PredOther text) = text)
  /\ repr (Samples.decimal 2 0) = "2.0"%string
  /\ fst (Persona.predict_persona
            (Samples.registry
               (Some (Samples.classifier
                        (PredOther (repr (Samples.decimal 2 0)))
                        (Some Samples.probabilities)))
               (Some Samples.StandardScaler) None)
            (Samples.persona_request Samples.valid_features) [])
     = Ok {| Persona.persona := "2.0";
             Persona.confidence := Samples.decimal 9 (-1);
             Persona.model_version := "1.0.0";
             Persona.predicted_at := 1762182000 |}
  /\ Persona.persona_label (PredStr "2.0") = "unknown"%string.
Proof.
  split; [reflexivity|]. repeat split; vm_compute; reflexivity.
Qed.

(** ** Missing models *)

(** C6. When the registry has no persona model or no scaler,
    [predict_persona] fails with status 500 after the two lookups; when it
    has no insight generator, [generate_weekly_insights] fails with status
    500 after the one lookup.  The whole trace of the request is shown: no
    method of a model is called and no lookup is repeated. *)
Theorem missing_model_is_fatal (E : env) :
  (forall request t,
     get_model E "persona_model" = None
     \/ get_model E "persona_scaler" = None ->
     Persona.predict_persona E request t
     = (Raise (HTTPException 500 "Model not loaded"),
        t ++ [Log INFO MsgPersonaRequest; GetModel "persona_model";
              GetModel "persona_scaler"]))
  /\ (forall request t,
        get_model E "insight_generator" = None ->
        let text := "'NoneType' object has no attribute 'generate'"%string in
        Insight.generate_weekly_insights E request t
        = (Raise (HTTPException 500
                    ("Insight generation failed: " ++ text)%string),
           t ++ [Log INFO MsgGeneratingInsights;
                 GetModel "insight_generator";
                 Log ERROR (MsgInsightFailed text)])).
Proof.
  split.
  - intros request t Hnone.
    unfold Persona.predict_persona, try_except, bind, logger, load, emit,
      ret, raise. simpl.
    destruct Hnone as [-> | ->];
      [|destruct (get_model E "persona_model")];
      simpl; norm_trace; reflexivity.
  - intros request t Hnone text.
    unfold Insight.generate_weekly_insights, try_except, bind, logger, load,
      emit, ret. simpl.
    rewrite Hnone. unfold call_generate, attribute_error, raise. simpl.
    norm_trace. reflexivity.
Qed.

Lemma missing_model_is_fatal_witness :
  let E := Samples.registry None (Some Samples.StandardScaler) None in
  (get_model E "persona_model" = None
   \/ get_model E "persona_scaler" = None)
  /\ get_model E "insight_generator" = None
  /\ Persona.predict_persona E
       (Samples.persona_request Samples.valid_features) []
     = (Raise (HTTPException 500 "Model not loaded"),
        [Log INFO MsgPersonaRequest; GetModel "persona_model";
         GetModel "persona_scaler"])
  /\ Insight.generate_weekly_insights E (Samples.insight_request 5 None) []
     = (Raise (HTTPException 500
          "Insight generation failed: 'NoneType' object has no attribute 'generate'"),
        [Log INFO MsgGeneratingInsights; GetModel "insight_generator";
         Log ERROR (MsgInsightFailed
                      "'NoneType' object has no attribute 'generate'")]).
Proof.
  intros E.
  split; [left; reflexivity|]. split; [reflexivity|]. split.
  - exact (proj1 (missing_model_is_fatal E)
             (Samples.persona_request Samples.valid_features) []
             (or_introl eq_refl)).
  - exact (proj2 (missing_model_is_fatal E)
             (Samples.insight_request 5 None) [] eq_refl).
Defined.

(** ** Computations without events *)

Section Silent.
Context {A B : Type}.

Lemma silent_ret (a : A) : silent (ret a).
Proof. exists (Ok a). intros t. reflexivity. Qed.

Lemma silent_lift (r : result A) : silent (lift r).
Proof. exists r. intros t. reflexivity. Qed.

Lemma silent_bind (m : M A) (k : A -> M B) :
  silent m -> (forall a, silent (k a)) -> silent (bind m k).
Proof.
  intros [[a|e] Hm] Hk.
  - destruct (Hk a) as [r Hr]. exists r. intros t.
    unfold bind. now rewrite Hm, Hr.
  - exists (Raise e). intros t. unfold bind. now rewrite Hm.
Qed.

Lemma silent_if (b : bool) (m1 m2 : M A) :
  silent m1 -> silent m2 -> silent (if b then m1 else m2).
Proof. now destruct b. Qed.

End Silent.

Create HintDb silent.
#[local] Hint Resolve silent_ret silent_lift silent_bind silent_if : silent.

Lemma counted_silent parts count verb noun suffix :
  silent (Insight.counted parts count verb noun suffix).
Proof.
  unfold Insight.counted.
  apply silent_bind; [auto with silent|]. intros positive.
  apply silent_if; [|auto with silent].
  apply silent_bind; auto with silent.
Qed.

Lemma generate_extended_message_silent persona level metrics score :
  silent (Insight.generate_extended_message persona level metrics score).
Proof.
  unfold Insight.generate_extended_message. cbv zeta.
  apply silent_bind; [auto with silent|]. intros studied.
  apply silent_bind.
  { apply silent_if; [|auto with silent].
    apply silent_bind; auto with silent. }
  intros parts1.
  apply silent_bind; [apply counted_silent|]. intros parts2.
  apply silent_bind; [apply counted_silent|]. intros parts3.
  apply silent_bind; [apply counted_silent|]. intros parts4.
  apply silent_ret.
Qed.

Section Succeeds.
Context {A B : Type}.




End Succeeds.





(** C9. The extended message is a function of the persona, the performance
    level and the metrics alone: two calls with these three equal end in the
    same outcome, the same text byte for byte, whatever the engagement scores
    passed and the traces they start from, and each leaves its trace as it
    found it. *)
Theorem generate_extended_message_pure
    (persona level : string) (metrics : str_dict value)
    (score1 score2 : float64) (t1 t2 : trace) :
  exists r : result string,
    Insight.generate_extended_message persona level metrics score1 t1
    = (r, t1)
    /\ Insight.generate_extended_message persona level metrics score2 t2
       = (r, t2).
Proof.
  destruct (generate_extended_message_silent persona level metrics score1)
    as [r Hr].
  exists r. split; [apply Hr|].
  change (Insight.generate_extended_message persona level metrics score2)
    with (Insight.generate_extended_message persona level metrics score1).
  apply Hr.
Qed.

(** The message of a request of the sample service. *)
Example generate_extended_message_sample :
  fst (Insight.generate_extended_message "Fast Learner" "good"
         [("study_time", PyFloat (Samples.decimal 125 (-1)));
          ("pomodoro", PyInt 4); ("quizzes", PyInt 1)]
         (Samples.decimal 75 0) [])
  = Ok ("As a Fast Learner, you thrive on quick absorption of new concepts and enjoy tackling challenges head-on. "
        ++ "This week you've logged 12.5 hours of study time, completed 4 Pomodoro sessions, and finished 1 quiz, showing solid commitment to your learning goals. "
        ++ "Consider challenging yourself with more complex materials to maintain your momentum.")%string.
Proof. vm_compute. reflexivity. Qed.

(** ** Weekly insights *)

Section Insights.
Import Insight.
Variables (E : env) (request : InsightRequest).
Variables (g : model).
Variable scoring : str_dict value -> string -> result insights.
Variable current : insights.
Hypothesis Hgenerator : get_model E "insight_generator" = Some g.
Hypothesis Hscoring : generate g = Some scoring.
Hypothesis Hcurrent :
  scoring (weekly_data request) (persona request) = Ok current.

(** The improvement rate before rounding, and the events of computing it. *)
Lemma improvement_cases t :
  improvement E request current t
  = match supplied (previous_week_data request) with
    | None => (Ok pos_zero, t)
    | Some previous =>
        let called :=
          [GetModel "insight_generator";
           CallGenerate previous (persona request)] in
        match scoring previous (persona request) with
        | Ok prev_insights =>
            let current_score := Runtime.engagement_score current in
            let prev_score := Runtime.engagement_score prev_insights in
            (Ok (if ltb (of_Z 0) prev_score
                 then mul (div (sub current_score prev_score) prev_score)
                          (of_Z 100)
                 else pos_zero),
             t ++ called)
        | Raise e =>
            (Ok pos_zero,
             t ++ called ++ [Log WARNING (MsgNoImprovementRate (exc_str e))])
        end
    end.
Proof.
  unfold improvement.
  destruct (supplied (previous_week_data request)) as [previous|];
    [|reflexivity].
  unfold try_except, bind, load, emit, ret. simpl.
  rewrite Hgenerator. unfold call_generate. rewrite Hscoring.
  unfold bind, emit, lift. simpl.
  destruct (scoring previous (persona request)) as [prev_insights|e]; simpl.
  - destruct (ltb _ _); unfold ret; norm_trace; reflexivity.
  - unfold bind, logger, emit, ret. simpl. norm_trace. reflexivity.
Qed.

(** Once the current period is scored, the handler answers with the
    improvement rate rounded to two decimals, unless the message generator
    raises, which makes it a 500. *)
Lemma generate_weekly_insights_scored t rate t' :
  improvement E request current
    (t ++ [Log INFO MsgGeneratingInsights; GetModel "insight_generator";
           CallGenerate (weekly_data request) (persona request)])
  = (Ok rate, t') ->
  generate_weekly_insights E request t
  = match current_message request current with
    | Ok message =>
        (Ok (weekly_response request current rate
               (summary_of (Runtime.performance_level current)
                           (Runtime.engagement_score current))
               message),
         t' ++ [Log INFO (MsgInsightsGenerated
                            (Runtime.performance_level current)
                            (format_fixed
                               (Runtime.engagement_score current) 1))])
    | Raise e =>
        (Raise (HTTPException 500
                  ("Insight generation failed: " ++ exc_str e)%string),
         t' ++ [Log ERROR (MsgInsightFailed (exc_str e))])
    end.
Proof.
  intros Hrate.
  destruct (generate_extended_message_silent (persona request)
              (Runtime.performance_level current) (Runtime.metrics current)
              (Runtime.engagement_score current)) as [r Hr].
  unfold current_message. rewrite Hr. simpl.
  unfold generate_weekly_insights, try_except, bind at 1, logger, emit.
  unfold bind at 1, load, bind at 1, emit, ret at 1. simpl.
  rewrite Hgenerator. unfold bind at 1, call_generate. rewrite Hscoring.
  unfold bind at 1, emit, lift. simpl. rewrite Hcurrent.
  norm_trace. unfold bind at 1. rewrite Hrate.
  unfold bind at 1. rewrite Hr.
  destruct r as [message|e]; unfold bind, ret, raise; [reflexivity|].
  destruct e; reflexivity.
Qed.

End Insights.

(** C5.  With previous-period data supplied and both periods scored, the
    response carries [((current - previous) / previous) * 100] rounded to two
    decimals when the previous score is greater than zero, and 0.0 otherwise,
    so for a previous score of zero: 50.0 for the scores 50 and 75, 0.0 for
    the scores 0 and 80.  The response is returned whenever the message
    generator succeeds on the current period. *)
Theorem improvement_rate_of_scores
    (E : env) (request : Insight.InsightRequest) (g : model)
    (scoring : str_dict value -> string -> result insights)
    (current prev_insights : insights) (previous : str_dict value)
    (t : trace) :
  get_model E "insight_generator" = Some g ->
  generate g = Some scoring ->
  scoring (Insight.weekly_data request) (Insight.persona request)
  = Ok current ->
  Insight.supplied (Insight.previous_week_data request) = Some previous ->
  scoring previous (Insight.persona request) = Ok prev_insights ->
  let current_score := engagement_score current in
  let prev_score := engagement_score prev_insights in
  let rate :=
    if ltb (of_Z 0) prev_score
    then round (mul (div (sub current_score prev_score) prev_score)
                    (of_Z 100)) 2
    else pos_zero in
  (forall sign, prev_score = S754_zero sign -> rate = pos_zero)
  /\ (prev_score = of_Z 50 -> current_score = of_Z 75 -> rate = of_Z 50)
  /\ (prev_score = of_Z 0 -> current_score = of_Z 80 -> rate = pos_zero)
  /\ (forall response t',
        Insight.generate_weekly_insights E request t = (Ok response, t') ->
        Insight.improvement_rate response = rate)
  /\ (forall message,
        Insight.current_message request current = Ok message ->
        exists response t',
          Insight.generate_weekly_insights E request t = (Ok response, t')
          /\ Insight.improvement_rate response = rate).
Proof.
  intros Hgenerator Hscoring Hcurrent Hsupplied Hprevious
    current_score prev_score rate.
  pose proof (generate_weekly_insights_scored E request g scoring current
                Hgenerator Hscoring Hcurrent t) as Hrun.
  rewrite (improvement_cases E request g scoring current
             Hgenerator Hscoring) in Hrun.
  rewrite Hsupplied in Hrun. cbv zeta in Hrun. rewrite Hprevious in Hrun.
  specialize (Hrun _ _ eq_refl).
  assert (Hrate :
    round (if ltb (of_Z 0) prev_score
           then mul (div (sub current_score prev_score) prev_score)
                    (of_Z 100)
           else pos_zero) 2 = rate).
  { subst rate. destruct (ltb (of_Z 0) prev_score); reflexivity. }
  split; [|split; [|split; [|split]]].
  - intros sign Hzero. subst rate. rewrite Hzero. reflexivity.
  - intros Hprev Hcur. subst rate. rewrite Hprev, Hcur.
    vm_compute. reflexivity.
  - intros Hprev Hcur. subst rate. rewrite Hprev. reflexivity.
  - intros response t' Hok. rewrite Hrun in Hok.
    destruct (Insight.current_message request current); [|discriminate].
    injection Hok as <- _. exact Hrate.
  - intros message Hmessage. rewrite Hmessage in Hrun.
    eexists; eexists. split; [exact Hrun|exact Hrate].
Qed.

Lemma improvement_rate_of_scores_witness :
  let request :=
    Samples.insight_request 5 (Some [("study_time"%string, PyInt 0)]) in
  let scoring data (persona : string) :=
    match get_default String.eqb "study_time" (PyInt 0) data with
    | PyInt hours =>
        Ok {| engagement_score := of_Z (50 + 5 * hours);
              performance_level := Samples.tier (50 + 5 * hours);
              recommendations := ["Keep a steady schedule"%string];
              metrics := data |}
    | other =>
        Raise (Exc TypeError
                 ("unsupported operand type(s) for *: 'int' and '"
                  ++ type_name_of other ++ "'")%string)
    end in
  get_model Samples.service "insight_generator"
  = Some (Samples.InsightGenerator 50 5)
  /\ generate (Samples.InsightGenerator 50 5) = Some scoring
  /\ (exists current previous,
        scoring (Insight.weekly_data request) (Insight.persona request)
        = Ok current
        /\ scoring [("study_time"%string, PyInt 0)] (Insight.persona request)
           = Ok previous
        /\ engagement_score current = Samples.decimal 75 0
        /\ engagement_score previous = Samples.decimal 50 0)
  /\ Insight.supplied (Insight.previous_week_data request)
     = Some [("study_time"%string, PyInt 0)]
  /\ exists response t',
       Insight.generate_weekly_insights Samples.service request []
       = (Ok response, t')
       /\ Insight.improvement_rate response = Samples.decimal 50 0.
Proof.
  intros request scoring.
  split; [reflexivity|]. split; [reflexivity|].
  split; [eexists; eexists; repeat split; vm_compute; reflexivity|].
  split; [reflexivity|].
  destruct (proj2 (proj2 (proj2 (proj2 (improvement_rate_of_scores
              Samples.service request (Samples.InsightGenerator 50 5)
              scoring _ _ [("study_time"%string, PyInt 0)] []
              eq_refl eq_refl eq_refl eq_refl eq_refl)))) _ eq_refl)
    as (response & t' & Hrun & Hrate).
  exists response, t'. split; [exact Hrun|].
  rewrite Hrate. vm_compute. reflexivity.
Defined.

(** The two examples of the improvement rate, run through the handler:
    previous score 50 and current score 75 give 50.0; previous score 0 and
    current score 80 give 0.0. *)
Example improvement_rate_examples :
  let rate E request :=
    match fst (Insight.generate_weekly_insights E request []) with
    | Ok response => Some (Insight.improvement_rate response)
    | Raise _ => None
    end in
  let previous := Some [("study_time"%string, PyInt 0)] in
  rate Samples.service (Samples.insight_request 5 previous)
  = Some (Samples.decimal 50 0)
  /\ rate (Samples.registry None None (Some (Samples.InsightGenerator 0 16)))
          (Samples.insight_request 5 previous)
     = Some (S754_zero false).
Proof. split; vm_compute; reflexivity. Qed.

(** An empty mapping is no previous-period data.  [if
    request.previous_week_data:] is false on it: the generator, which would
    score it 50, is called on the current period only, and the response
    carries 0.0. *)
Example improvement_rate_of_empty_previous_data :
  let request := Samples.insight_request 5 (Some []) in
  let score data :=
    match generate (Samples.InsightGenerator 50 5) with
    | Some scoring =>
        match scoring data (Insight.persona request) with
        | Ok scored => Some (engagement_score scored)
        | Raise _ => None
        end
    | None => None
    end in
  Insight.previous_week_data request = Some []
  /\ score [] = Some (Samples.decimal 50 0)
  /\ ltb (of_Z 0) (Samples.decimal 50 0) = true
  /\ score (Insight.weekly_data request) = Some (Samples.decimal 75 0)
  /\ round (mul (div (sub (Samples.decimal 75 0) (Samples.decimal 50 0))
                     (Samples.decimal 50 0)) (of_Z 100)) 2
     = Samples.decimal 50 0
  /\ exists response,
       Insight.generate_weekly_insights Samples.service request []
       = (Ok response,
          [Log INFO MsgGeneratingInsights; GetModel "insight_generator";
           CallGenerate (Insight.weekly_data request)
                        (Insight.persona request);
           Log INFO (MsgInsightsGenerated "good" "75.0")])
       /\ Insight.improvement_rate response = S754_zero false
       /\ Insight.improvement_rate response <> Samples.decimal 50 0.
Proof.
  cbv zeta. repeat (split; [vm_compute; reflexivity|]).
  eexists. split; [vm_compute; reflexivity|].
  split; [vm_compute; reflexivity|]. vm_compute. discriminate.
Qed.

(** X19. Without previous-period data, absent or an empty mapping, the
    generator is called on the current period only and the improvement rate
    of the response is 0.0; the request leaves four events. *)
Lemma improvement_rate_without_previous
    (E : env) (request : Insight.InsightRequest) (g : model)
    (scoring : str_dict value -> string -> result insights)
    (current : insights) (t : trace) :
  get_model E "insight_generator" = Some g ->
  generate g = Some scoring ->
  scoring (Insight.weekly_data request) (Insight.persona request)
  = Ok current ->
  Insight.supplied (Insight.previous_week_data request) = None ->
  forall response t',
    Insight.generate_weekly_insights E request t = (Ok response, t') ->
    Insight.improvement_rate response = pos_zero
    /\ t' = t ++ [Log INFO MsgGeneratingInsights;
                  GetModel "insight_generator";
                  CallGenerate (Insight.weekly_data request)
                               (Insight.persona request);
                  Log INFO (MsgInsightsGenerated
                              (performance_level current)
                              (format_fixed (engagement_score current) 1))].
Proof.
  intros Hgenerator Hscoring Hcurrent Hnone response t' Hok.
  pose proof (generate_weekly_insights_scored E request g scoring current
                Hgenerator Hscoring Hcurrent t) as Hrun.
  rewrite (improvement_cases E request g scoring current
             Hgenerator Hscoring), Hnone in Hrun.
  specialize (Hrun _ _ eq_refl). rewrite Hrun in Hok.
  destruct (Insight.current_message request current); [|discriminate].
  injection Hok as <- <-. split; [reflexivity|].
  norm_trace. reflexivity.
Qed.

Lemma improvement_rate_without_previous_witness :
  let request := Samples.insight_request 5 (Some []) in
  get_model Samples.service "insight_generator"
  = Some (Samples.InsightGenerator 50 5)
  /\ Insight.supplied (Insight.previous_week_data request) = None
  /\ exists response t',
       Insight.generate_weekly_insights Samples.service request []
       = (Ok response, t')
       /\ Insight.improvement_rate response = pos_zero
       /\ List.length t' = 4%nat.
Proof.
  intros request. split; [reflexivity|]. split; [reflexivity|].
  eexists. eexists.
  assert (Hrun : Insight.generate_weekly_insights Samples.service request []
                 = (fst (Insight.generate_weekly_insights
                           Samples.service request []),
                    snd (Insight.generate_weekly_insights
                           Samples.service request [])))
    by apply surjective_pairing.
  vm_compute in Hrun. split; [exact Hrun|].
  match type of Hrun with
  | _ = (Ok ?r, ?tr) =>
      destruct (improvement_rate_without_previous Samples.service
                  (Samples.insight_request 5 (Some []))
                  (Samples.InsightGenerator 50 5) _ _ []
                  eq_refl eq_refl eq_refl eq_refl r tr Hrun) as [Hrate Htrace]
  end.
  split; [exact Hrate|]. rewrite Htrace. reflexivity.
Defined.

(** C8.  When the scoring call on the previous-period data raises, the
    exception is logged as a warning and goes no further: the request ends as
    the same request without previous-period data ends, and whenever the
    message generator succeeds on the current period the response is returned
    with the insights of the current period and improvement rate 0.0. *)
Theorem previous_scoring_failure_absorbed
    (E : env) (request : Insight.InsightRequest) (g : model)
    (scoring : str_dict value -> string -> result insights)
    (current : insights) (previous : str_dict value) (e : exception)
    (t : trace) :
  get_model E "insight_generator" = Some g ->
  generate g = Some scoring ->
  scoring (Insight.weekly_data request) (Insight.persona request)
  = Ok current ->
  Insight.supplied (Insight.previous_week_data request) = Some previous ->
  scoring previous (Insight.persona request) = Raise e ->
  let current_only :=
    {| Insight.weekly_data := Insight.weekly_data request;
       Insight.persona := Insight.persona request;
       Insight.previous_week_data := None |} in
  let warning := Log WARNING (MsgNoImprovementRate (exc_str e)) in
  fst (Insight.generate_weekly_insights E request t)
  = fst (Insight.generate_weekly_insights E current_only t)
  /\ In warning (snd (Insight.generate_weekly_insights E request t))
  /\ (forall message,
        Insight.current_message request current = Ok message ->
        exists response,
          Insight.generate_weekly_insights E request t
          = (Ok response,
             t ++ [Log INFO MsgGeneratingInsights;
                   GetModel "insight_generator";
                   CallGenerate (Insight.weekly_data request)
                                (Insight.persona request);
                   GetModel "insight_generator";
                   CallGenerate previous (Insight.persona request);
                   warning;
                   Log INFO (MsgInsightsGenerated
                               (performance_level current)
                               (format_fixed (engagement_score current) 1))])
          /\ Insight.improvement_rate response = pos_zero
          /\ Insight.engagement_score response = engagement_score current
          /\ Insight.performance_level response = performance_level current
          /\ Insight.recommendations response = recommendations current
          /\ Insight.summary response
             = Insight.summary_of (performance_level current)
                                  (engagement_score current)
          /\ Insight.extended_message response = message
          /\ Insight.metrics response = metrics current).
Proof.
  intros Hgenerator Hscoring Hcurrent Hsupplied Hprevious current_only warning.
  pose proof (generate_weekly_insights_scored E request g scoring current
                Hgenerator Hscoring Hcurrent t) as Hrun.
  rewrite (improvement_cases E request g scoring current
             Hgenerator Hscoring) in Hrun.
  rewrite Hsupplied in Hrun. cbv zeta in Hrun. rewrite Hprevious in Hrun.
  specialize (Hrun _ _ eq_refl).
  pose proof (generate_weekly_insights_scored E current_only g scoring current
                Hgenerator Hscoring Hcurrent t) as Hrun0.
  rewrite (improvement_cases E current_only g scoring current
             Hgenerator Hscoring) in Hrun0.
  simpl Insight.supplied in Hrun0. specialize (Hrun0 _ _ eq_refl).
  change (Insight.current_message current_only current)
    with (Insight.current_message request current) in Hrun0.
  rewrite Hrun, Hrun0.
  split; [|split].
  - destruct (Insight.current_message request current); reflexivity.
  - destruct (Insight.current_message request current); simpl; warned.
  - intros message Hmessage. rewrite Hmessage.
    eexists. split.
    + norm_trace. reflexivity.
    + repeat split.
Qed.

Lemma previous_scoring_failure_absorbed_witness :
  let previous := [("study_time"%string, PyStr "n/a")] in
  let request := Samples.insight_request 5 (Some previous) in
  let scoring data (persona : string) :=
    match get_default String.eqb "study_time" (PyInt 0) data with
    | PyInt hours =>
        Ok {| engagement_score := of_Z (50 + 5 * hours);
              performance_level := Samples.tier (50 + 5 * hours);
              recommendations := ["Keep a steady schedule"%string];
              metrics := data |}
    | other =>
        Raise (Exc TypeError
                 ("unsupported operand type(s) for *: 'int' and '"
                  ++ type_name_of other ++ "'")%string)
    end in
  let e :=
    Exc TypeError "unsupported operand type(s) for *: 'int' and 'str'" in
  get_model Samples.service "insight_generator"
  = Some (Samples.InsightGenerator 50 5)
  /\ generate (Samples.InsightGenerator 50 5) = Some scoring
  /\ (exists current,
        scoring (Insight.weekly_data request) (Insight.persona request)
        = Ok current)
  /\ Insight.supplied (Insight.previous_week_data request) = Some previous
  /\ scoring previous (Insight.persona request) = Raise e
  /\ fst (Insight.generate_weekly_insights Samples.service request [])
     = fst (Insight.generate_weekly_insights Samples.service
              (Samples.insight_request 5 None) [])
  /\ In (Log WARNING (MsgNoImprovementRate (exc_str e)))
        (snd (Insight.generate_weekly_insights Samples.service request [])).
Proof.
  intros previous request scoring e.
  split; [reflexivity|]. split; [reflexivity|].
  split; [eexists; reflexivity|].
  split; [reflexivity|]. split; [reflexivity|].
  pose proof (previous_scoring_failure_absorbed
                Samples.service request (Samples.InsightGenerator 50 5)
                scoring _ previous e []
                eq_refl eq_refl eq_refl eq_refl eq_refl) as H.
  split; [exact (proj1 H)|exact (proj1 (proj2 H))].
Defined.

(** The response of the sample service when the previous period cannot be
    scored. *)
Example previous_scoring_failure_sample :
  match Insight.generate_weekly_insights Samples.service
          (Samples.insight_request 5
             (Some [("study_time"%string, PyStr "n/a")])) [] with
  | (Ok response, events) =>
      Insight.improvement_rate response = S754_zero false
      /\ Insight.engagement_score response = Samples.decimal 75 0
      /\ Insight.performance_level response = "good"%string
      /\ Insight.summary response
         = "Great work this week! Your engagement score of 75.0/100 demonstrates solid progress."%string
      /\ List.length events = 7%nat
  | (Raise _, _) => False
  end.
Proof. vm_compute. repeat split. Qed.

(* ================================================================== *)
(** * Further properties of the two routers and the settings *)

(** ** Outcomes of the feature builder *)

Lemma py_float_raises v e :
  py_float v = Raise e ->
  exists text,
    e = Exc ValueError text \/ e = Exc TypeError text
    \/ e = Exc OverflowError text.
Proof.
  destruct v as [|b|n|x|s|ty s]; simpl; try discriminate.
  - intros [= <-]. eexists. right. left. reflexivity.
  - unfold float_of_int. destruct (is_finite (of_Z n)); [discriminate|].
    intros [= <-]. eexists. right. right. reflexivity.
  - destruct (of_string s); [discriminate|].
    intros [= <-]. eexists. left. reflexivity.
  - intros [= <-]. eexists. right. left. reflexivity.
Qed.

(** The loop either appends the floats of all its keys, or stops with a
    [ValueError] or an [OverflowError] at a key that is not coercible. *)
Lemma collect_features_outcome d keys :
  forall acc, exists r,
    returns (Persona.collect_features d keys acc) r
    /\ match r with
       | Ok features =>
           exists row,
             features = acc ++ row /\ Forall2 (Persona.coerces d) keys row
       | Raise (Exc ValueError _) | Raise (Exc OverflowError _) =>
           ~ Forall (Persona.coercible d) keys
       | Raise _ => False
       end.
Proof.
  induction keys as [|key keys IH]; intros acc; simpl.
  - exists (Ok acc). split; [intros t; reflexivity|].
    exists []. split; [now rewrite app_nil_r|constructor].
  - destruct (get String.eqb key d) as [v|] eqn:Hget.
    + destruct (py_float v) as [x|e] eqn:Hfloat.
      * destruct (IH (acc ++ [x])) as (r & Hr & Hcase).
        exists r. split.
        -- intros t. unfold bind, try_except, lift. apply Hr.
        -- assert (Hkey : Persona.coerces d key x) by (exists v; now split).
           destruct r as [features|[[]|]]; try exact Hcase.
           ++ destruct Hcase as (row & -> & Hrow). exists (x :: row).
              split; [now rewrite <- app_assoc|now constructor].
           ++ intros Hall. apply Hcase. now inversion Hall.
           ++ intros Hall. apply Hcase. now inversion Hall.
      * assert (Hbad : ~ Forall (Persona.coercible d) (key :: keys)).
        { intros Hall. inversion Hall as [|? ? (x & w & Hw & Hx) _]; subst.
          congruence. }
        destruct (py_float_raises v e Hfloat) as (text & [->|[->| ->]]).
        -- exists (Raise (Exc ValueError (Persona.not_numeric key v))).
           split; [|exact Hbad]. intros t.
           unfold bind, try_except, lift. reflexivity.
        -- exists (Raise (Exc ValueError (Persona.not_numeric key v))).
           split; [|exact Hbad]. intros t.
           unfold bind, try_except, lift. reflexivity.
        -- exists (Raise (Exc OverflowError text)). split; [|exact Hbad].
           intros t. unfold bind, try_except, lift. reflexivity.
    + exists (Raise (Exc ValueError (Persona.missing_feature key))).
      split; [intros t; reflexivity|]. simpl.
      intros Hall. inversion Hall as [|? ? (x & w & Hw & Hx) _]; subst.
      congruence.
Qed.

(** The builder ends, without an event, in one row or in a [ValueError]. *)
Lemma extract_features_array_cases d :
  (exists row,
     returns (Persona.extract_features_array d) (Ok [row])
     /\ Forall2 (Persona.coerces d) Persona.feature_order row)
  \/ (exists text,
        returns (Persona.extract_features_array d)
                (Raise (Exc ValueError text))
        /\ ~ Forall (Persona.coercible d) Persona.feature_order).
Proof.
  destruct (collect_features_outcome d Persona.feature_order [])
    as (r & Hr & Hcase).
  destruct r as [features|[[]|]]; try contradiction.
  - destruct Hcase as (row & -> & Hrow). left. exists row.
    split; [|exact Hrow]. intros t.
    unfold Persona.extract_features_array, try_except, bind.
    rewrite Hr. reflexivity.
  - right. exists text. split; [|exact Hcase]. intros t.
    unfold Persona.extract_features_array, try_except, bind.
    rewrite Hr. reflexivity.
  - right. exists ("Error processing features: " ++ text)%string.
    split; [|exact Hcase]. intros t.
    unfold Persona.extract_features_array, try_except, bind.
    rewrite Hr. reflexivity.
Qed.

(** X1. Whatever the mapping, [extract_features_array] adds no event and
    ends in one of two ways: a batch of one row of 18 floats, or a
    [ValueError]; and it raises exactly when some required key is absent or
    holds a value [float()] rejects. *)
Theorem extract_features_array_ok_or_value_error (d : str_dict value) :
  exists r,
    returns (Persona.extract_features_array d) r
    /\ match r with
       | Ok arr =>
           shape arr = (1%nat, 18%nat)
           /\ Forall (Persona.coercible d) Persona.feature_order
       | Raise (Exc ValueError _) =>
           ~ Forall (Persona.coercible d) Persona.feature_order
       | Raise _ => False
       end.
Proof.
  destruct (extract_features_array_cases d)
    as [(row & Hrun & Hrow)|(text & Hrun & Hbad)].
  - exists (Ok [row]). split; [exact Hrun|]. split.
    + unfold shape. simpl List.length.
      now rewrite (Forall2_length_eq _ _ _ Hrow).
    + clear Hrun. induction Hrow as [|key x keys row Hx _ IH];
        constructor; [now exists x|exact IH].
  - exists (Raise (Exc ValueError text)). split; assumption.
Qed.

(** ** Outcomes of [predict_persona] *)

(** X2. With both models loaded, a request whose features are not all
    present and coercible is answered 422 with the text of the builder's
    [ValueError]; the failure is logged once and neither the scaler nor the
    model is called. *)
Theorem predict_persona_rejects_invalid_features
    (E : env) (request : Persona.PersonaFeaturesRequest)
    (model scaler : Runtime.model) (t : trace) :
  get_model E "persona_model" = Some model ->
  get_model E "persona_scaler" = Some scaler ->
  ~ Forall (Persona.coercible (Persona.features request))
           Persona.feature_order ->
  exists text,
    returns (Persona.extract_features_array (Persona.features request))
            (Raise (Exc ValueError text))
    /\ Persona.predict_persona E request t
       = (Raise (HTTPException 422 text),
          t ++ [Log INFO MsgPersonaRequest; GetModel "persona_model";
                GetModel "persona_scaler";
                Log ERROR (MsgFeatureValidationFailed text)]).
Proof.
  intros Hmodel Hscaler Hbad.
  destruct (extract_features_array_cases (Persona.features request))
    as [(row & _ & Hrow)|(text & Hrun & _)].
  - exfalso. apply Hbad. clear Hbad.
    induction Hrow as [|key x keys row Hx _ IH];
      constructor; [now exists x|exact IH].
  - exists text. split; [exact Hrun|].
    now apply (predict_persona_invalid E request model scaler).
Qed.

Lemma predict_persona_rejects_invalid_features_witness :
  let request :=
    Samples.persona_request
      (Samples.with_feature "consistency_ratio" (PyStr "abc")) in
  get_model Samples.service "persona_model"
  = Some (Samples.classifier (PredInt 0) (Some Samples.probabilities))
  /\ get_model Samples.service "persona_scaler" = Some Samples.StandardScaler
  /\ ~ Forall (Persona.coercible (Persona.features request))
              Persona.feature_order
  /\ exists text,
       returns (Persona.extract_features_array (Persona.features request))
               (Raise (Exc ValueError text))
       /\ Persona.predict_persona Samples.service request []
          = (Raise (HTTPException 422 text),
             [] ++ [Log INFO MsgPersonaRequest; GetModel "persona_model";
                    GetModel "persona_scaler";
                    Log ERROR (MsgFeatureValidationFailed text)]).
Proof.
  intros request.
  assert (Hbad : ~ Forall (Persona.coercible (Persona.features request))
                          Persona.feature_order).
  { intros Hall.
    assert (Hin : In "consistency_ratio"%string Persona.feature_order)
      by (simpl; tauto).
    destruct (proj1 (Forall_forall _ _) Hall _ Hin) as (x & v & Hv & Hx).
    vm_compute in Hv. injection Hv as <-. vm_compute in Hx. discriminate. }
  split; [reflexivity|]. split; [reflexivity|]. split; [exact Hbad|].
  exact (predict_persona_rejects_invalid_features Samples.service request
           _ _ [] eq_refl eq_refl Hbad).
Defined.

Section Inversion.
Context {A B : Type}.

Lemma bind_ok_inv (m : M A) (k : A -> M B) t b t' :
  bind m k t = (Ok b, t') ->
  exists a t1, m t = (Ok a, t1) /\ k a t1 = (Ok b, t').
Proof.
  unfold bind. destruct (m t) as [[a|e] t1]; [|discriminate].
  intros H. now exists a, t1.
Qed.

Lemma bind_raise_inv (m : M A) (k : A -> M B) t e t' :
  bind m k t = (Raise e, t') ->
  m t = (Raise e, t')
  \/ exists a t1, m t = (Ok a, t1) /\ k a t1 = (Raise e, t').
Proof.
  unfold bind. destruct (m t) as [[a|e0] t1]; intros H.
  - right. now exists a, t1.
  - left. now injection H as -> ->.
Qed.

Lemma try_except_ok_inv (body : M A) handler t a t' :
  try_except body handler t = (Ok a, t') ->
  body t = (Ok a, t')
  \/ exists e t1 h,
       body t = (Raise e, t1) /\ handler e = Some h /\ h t1 = (Ok a, t').
Proof.
  unfold try_except. destruct (body t) as [[a0|e] t1]; intros H.
  - now left.
  - right. destruct (handler e) as [h|] eqn:Hh; [|discriminate].
    now exists e, t1, h.
Qed.

End Inversion.

Lemma load_inv E name t (m : option model) t' :
  load E name t = (Ok m, t') ->
  m = get_model E name /\ t' = t ++ [GetModel name].
Proof. unfold load, bind, emit, ret. now intros [= <- <-]. Qed.

(** X3. [predict_persona] returns a response only along one path: both
    models are loaded, every required feature is present and coercible, the
    scaler transforms the row, and the model predicts a non-empty array.  The
    response then carries the label of the first prediction, a confidence
    rounded to four decimals, the version "1.0.0" and the time of the
    clock. *)
Theorem predict_persona_response_inv
    (E : env) (request : Persona.PersonaFeaturesRequest) (t t' : trace)
    (response : Persona.PersonaResponse) :
  Persona.predict_persona E request t = (Ok response, t') ->
  exists model scaler f p row scaled v rest c,
    get_model E "persona_model" = Some model
    /\ get_model E "persona_scaler" = Some scaler
    /\ Forall2 (Persona.coerces (Persona.features request))
               Persona.feature_order row
    /\ transform scaler = Some f /\ f [row] = Ok scaled
    /\ predict model = Some p /\ p scaled = Ok (v :: rest)
    /\ response
       = {| Persona.persona := Persona.persona_label v;
            Persona.confidence := round c 4;
            Persona.model_version := "1.0.0";
            Persona.predicted_at := utcnow E |}.
Proof.
  intros H. unfold Persona.predict_persona in H.
  apply try_except_ok_inv in H.
  destruct H as [H|(e & t1 & h & _ & Hh & Hrun)];
    [|destruct e; [injection Hh as <-|discriminate];
      unfold bind, logger, emit, raise in Hrun; discriminate].
  apply bind_ok_inv in H. destruct H as (_ & t1 & _ & H).
  apply bind_ok_inv in H. destruct H as (om & t2 & Hm & H).
  apply load_inv in Hm. destruct Hm as [-> _].
  apply bind_ok_inv in H. destruct H as (os & t3 & Hs & H).
  apply load_inv in Hs. destruct Hs as [-> _].
  destruct (get_model E "persona_model") as [model|];
    [destruct (get_model E "persona_scaler") as [scaler|]|];
    try discriminate.
  apply bind_ok_inv in H. destruct H as (arr & t4 & Harr & H).
  apply try_except_ok_inv in Harr.
  destruct Harr as [Harr|(e & t5 & h & _ & Hh & Hrun)];
    [|destruct e as [[]|]; try discriminate; injection Hh as <-;
      unfold bind, logger, emit, raise in Hrun; discriminate].
  destruct (extract_features_array_cases (Persona.features request))
    as [(row & Hrow_run & Hrow)|(text & Hbad & _)];
    [rewrite Hrow_run in Harr; injection Harr as <- <-
    |rewrite Hbad in Harr; discriminate].
  apply bind_ok_inv in H. destruct H as (_ & t5 & _ & H).
  apply bind_ok_inv in H. destruct H as (scaled & t6 & Hscaled & H).
  unfold call_transform in Hscaled.
  destruct (transform scaler) as [f|] eqn:Hf; [|discriminate].
  unfold bind, emit, lift in Hscaled. simpl in Hscaled.
  destruct (f [row]) as [scaled'|e] eqn:Hfrow; [|discriminate].
  injection Hscaled as -> _.
  apply bind_ok_inv in H. destruct H as (prediction & t7 & Hprediction & H).
  unfold call_predict in Hprediction.
  destruct (predict model) as [p|] eqn:Hp; [|discriminate].
  unfold bind, emit, lift in Hprediction. simpl in Hprediction.
  destruct (p scaled) as [prediction'|e] eqn:Hpscaled; [|discriminate].
  injection Hprediction as -> _.
  apply bind_ok_inv in H. destruct H as (first & t8 & Hfirst & H).
  destruct prediction as [|v rest]; [discriminate|].
  apply bind_ok_inv in H. destruct H as (_ & t9 & _ & H).
  apply bind_ok_inv in H. destruct H as (v' & t10 & Hv & H).
  unfold np_getitem in Hv. simpl in Hv. injection Hv as <- _.
  apply bind_ok_inv in H. destruct H as (c & t11 & _ & H).
  apply bind_ok_inv in H. destruct H as (_ & t12 & _ & H).
  unfold ret in H. injection H as <- _.
  exists model, scaler, f, p, row, scaled, v, rest, c.
  repeat split; assumption.
Qed.

Lemma predict_persona_response_inv_witness :
  exists response t',
    Persona.predict_persona Samples.service
      (Samples.persona_request Samples.valid_features) []
    = (Ok response, t')
    /\ exists v c,
         response
         = {| Persona.persona := Persona.persona_label v;
              Persona.confidence := round c 4;
              Persona.model_version := "1.0.0";
              Persona.predicted_at := utcnow Samples.service |}.
Proof.
  eexists. eexists. split; [vm_compute; reflexivity|].
  destruct (predict_persona_response_inv Samples.service
              (Samples.persona_request Samples.valid_features) [] _ _
              eq_refl)
    as (model & scaler & f & p & row & scaled & v & rest & c & H).
  exists v, c. apply H.
Defined.

Lemma try_except_raise_inv {A : Type} (body : M A) handler t e t' :
  try_except body handler t = (Raise e, t') ->
  (body t = (Raise e, t') /\ handler e = None)
  \/ exists e0 t1 h,
       body t = (Raise e0, t1) /\ handler e0 = Some h
       /\ h t1 = (Raise e, t').
Proof.
  unfold try_except. destruct (body t) as [[a|e0] t1]; [discriminate|].
  destruct (handler e0) as [h|] eqn:Hh; intros H.
  - right. now exists e0, t1, h.
  - left. now injection H as -> ->.
Qed.

Lemma persona_confidence_never_raises model x v t e t' :
  Persona.persona_confidence model x v t <> (Raise e, t').
Proof.
  rewrite persona_confidence_cases. cbv zeta.
  destruct (predict_proba model) as [g|]; [|discriminate].
  destruct (g x) as [probabilities|e0]; [|discriminate].
  destruct (getitem probabilities 0) as [row|]; [|discriminate].
  destruct v as [n|s|s];
    [destruct (getitem row n)|destruct (np_max row)|destruct (np_max row)];
    discriminate.
Qed.

Ltac raise_step H :=
  apply bind_raise_inv in H;
  destruct H as [H|(? & ? & ? & H)];
  [try discriminate|].

(** X4. [predict_persona] never lets a plain exception escape: every failure
    is an [HTTPException].  When the scaler's [transform] and the model's
    [predict] raise no [HTTPException] of their own, the status is 422 or
    500. *)
Theorem predict_persona_failure_status (E : env) :
  (forall request t e t',
     Persona.predict_persona E request t = (Raise e, t') ->
     exists status detail, e = HTTPException status detail)
  /\ ((forall scaler,
         get_model E "persona_scaler" = Some scaler ->
         raises_no_http (transform scaler)) ->
      (forall model,
         get_model E "persona_model" = Some model ->
         raises_no_http (predict model)) ->
      forall request t status detail t',
        Persona.predict_persona E request t
        = (Raise (HTTPException status detail), t') ->
        status = 422 \/ status = 500).
Proof.
  split.
  - intros request t e t' H. unfold Persona.predict_persona in H.
    apply try_except_raise_inv in H.
    destruct H as [[_ Hnone]|(e0 & t1 & h & _ & Hh & Hrun)].
    + destruct e as [c text|status detail]; [discriminate|].
      now exists status, detail.
    + destruct e0; [injection Hh as <-|discriminate].
      unfold bind, logger, emit, raise in Hrun. injection Hrun as <- _.
      eexists. eexists. reflexivity.
  - intros Htransform Hpredict request t status detail t' H.
    unfold Persona.predict_persona in H.
    apply try_except_raise_inv in H.
    destruct H as [[H _]|(e0 & t1 & h & _ & Hh & Hrun)];
      [|destruct e0; [injection Hh as <-|discriminate];
        unfold bind, logger, emit, raise in Hrun;
        injection Hrun as <- _; now right].
    raise_step H.
    raise_step H.
    match goal with Hl : load _ _ _ = _ |- _ =>
      apply load_inv in Hl; destruct Hl as [-> _] end.
    raise_step H.
    match goal with Hl : load _ _ _ = _ |- _ =>
      apply load_inv in Hl; destruct Hl as [-> _] end.
    destruct (get_model E "persona_model") as [model|] eqn:Hmodel;
      [destruct (get_model E "persona_scaler") as [scaler|] eqn:Hscaler|];
      try (unfold raise in H; injection H as <- _; now right).
    raise_step H.
    { apply try_except_raise_inv in H.
      destruct (extract_features_array_cases (Persona.features request))
        as [(row & Hrow & _)|(text & Hbad & _)].
      - destruct H as [[H _]|(e0 & t1 & h & H & _)];
          rewrite Hrow in H; discriminate.
      - destruct H as [[H Hnone]|(e0 & t1 & h & H & Hh & Hrun)];
          rewrite Hbad in H; [discriminate|].
        injection H as <- <-. injection Hh as <-.
        unfold bind, logger, emit, raise in Hrun.
        injection Hrun as <- _. now left. }
    raise_step H.
    raise_step H.
    { unfold call_transform in H.
      destruct (transform scaler) as [f|] eqn:Hf; [|discriminate].
      unfold bind, emit, lift in H. simpl in H.
      destruct (f _) as [scaled|e0] eqn:Hfx; [discriminate|].
      injection H as -> _.
      exfalso. exact (Htransform scaler eq_refl f _ _ _ Hf Hfx). }
    raise_step H.
    { unfold call_predict in H.
      destruct (predict model) as [p|] eqn:Hp; [|discriminate].
      unfold bind, emit, lift in H. simpl in H.
      destruct (p _) as [prediction|e0] eqn:Hpx; [discriminate|].
      injection H as -> _.
      exfalso. exact (Hpredict model eq_refl p _ _ _ Hp Hpx). }
    raise_step H.
    { unfold np_getitem, ret, raise in H.
      destruct (getitem _ 0); discriminate. }
    raise_step H.
    raise_step H.
    { unfold np_getitem, ret, raise in H.
      destruct (getitem _ 0); discriminate. }
    raise_step H.
    { exfalso. exact (persona_confidence_never_raises _ _ _ _ _ _ H). }
    raise_step H. unfold ret in H. discriminate.
Qed.

Lemma predict_persona_failure_status_witness :
  let request :=
    Samples.persona_request (Samples.without_feature "focus_score") in
  (forall scaler,
     get_model Samples.service "persona_scaler" = Some scaler ->
     raises_no_http (transform scaler))
  /\ (forall model,
        get_model Samples.service "persona_model" = Some model ->
        raises_no_http (predict model))
  /\ exists status detail t',
       Persona.predict_persona Samples.service request []
       = (Raise (HTTPException status detail), t')
       /\ (status = 422 \/ status = 500).
Proof.
  intros request.
  assert (Hscaler : forall scaler,
            get_model Samples.service "persona_scaler" = Some scaler ->
            raises_no_http (transform scaler)).
  { intros scaler [= <-] f x status detail [= <-]. discriminate. }
  assert (Hmodel : forall model,
            get_model Samples.service "persona_model" = Some model ->
            raises_no_http (predict model)).
  { intros model [= <-] f x status detail [= <-]. discriminate. }
  split; [exact Hscaler|]. split; [exact Hmodel|].
  eexists. eexists. eexists.
  assert (Hrun : Persona.predict_persona Samples.service request []
                 = (Raise (HTTPException 422
                             "Missing required feature: 'focus_score'"),
                    [Log INFO MsgPersonaRequest; GetModel "persona_model";
                     GetModel "persona_scaler";
                     Log ERROR (MsgFeatureValidationFailed
                                  "Missing required feature: 'focus_score'")]))
    by (vm_compute; reflexivity).
  split; [exact Hrun|].
  exact (proj2 (predict_persona_failure_status Samples.service)
           Hscaler Hmodel request [] _ _ _ Hrun).
Defined.

(** X5. What [predict_persona] does, once the features are valid, when the
    inference itself fails.  A scaler without [transform] or a model without
    [predict], an exception raised by either method, and an empty prediction
    array all end in status 500 with "Prediction failed: " and the text of
    the exception, logged as an error; an [HTTPException] raised by a method
    passes through unchanged.  The model is not called after a failed
    [transform], and [predict_proba] is not called after a failed
    [predict]. *)
Theorem predict_persona_inference_failure
    (E : env) (request : Persona.PersonaFeaturesRequest)
    (model scaler : Runtime.model) (arr : ndarray) (t : trace) :
  get_model E "persona_model" = Some model ->
  get_model E "persona_scaler" = Some scaler ->
  returns (Persona.extract_features_array (Persona.features request))
          (Ok arr) ->
  let start :=
    [Log INFO MsgPersonaRequest; GetModel "persona_model";
     GetModel "persona_scaler"; Log DEBUG (MsgFeaturesShape (shape arr))] in
  let outcome e calls :=
    Persona.predict_persona E request t
    = match e with
      | Exc _ text =>
          (Raise (HTTPException 500 ("Prediction failed: " ++ text)%string),
           t ++ start ++ calls ++ [Log ERROR (MsgPredictionFailed text)])
      | HTTPException _ _ => (Raise e, t ++ start ++ calls)
      end in
  let no_attribute (m : Runtime.model) (attr : string) :=
    Exc AttributeError
        ("'" ++ class_name m ++ "' object has no attribute '" ++ attr ++ "'")
        %string in
  match transform scaler with
  | None => outcome (no_attribute scaler "transform") []
  | Some f =>
      match f arr with
      | Raise e => outcome e [CallTransform arr]
      | Ok scaled =>
          let calls := [CallTransform arr; CallPredict scaled] in
          match predict model with
          | None => outcome (no_attribute model "predict") [CallTransform arr]
          | Some p =>
              match p scaled with
              | Raise e => outcome e calls
              | Ok [] =>
                  outcome
                    (Exc IndexError
                       "index 0 is out of bounds for axis 0 with size 0")
                    calls
              | Ok (_ :: _) => True
              end
          end
      end
  end.
Proof.
  intros Hmodel Hscaler Hfeatures start outcome no_attribute.
  subst outcome no_attribute start. cbv beta zeta.
  destruct (transform scaler) as [f|] eqn:Hf;
    [destruct (f arr) as [scaled|e] eqn:Hfx;
     [destruct (predict model) as [p|] eqn:Hp;
      [destruct (p scaled) as [[|v rest]|e] eqn:Hpx|]|]|];
    try exact I; try destruct e;
    unfold Persona.predict_persona, try_except, bind, logger, load, emit,
      ret, raise, call_transform, call_predict, attribute_error, lift,
      np_getitem;
    simpl;
    repeat (first [rewrite Hmodel | rewrite Hscaler | rewrite Hfeatures
                  | rewrite Hf | rewrite Hfx | rewrite Hp | rewrite Hpx];
            simpl);
    norm_trace; reflexivity.
Qed.

Lemma predict_persona_inference_failure_witness :
  let E :=
    Samples.registry
      (Some (Samples.classifier (PredInt 0) (Some Samples.probabilities)))
      (Some Samples.narrow_scaler) None in
  let request := Samples.persona_request Samples.valid_features in
  let text :=
    "X has 18 features, but StandardScaler is expecting 17 features as input."
    %string in
  get_model E "persona_model"
  = Some (Samples.classifier (PredInt 0) (Some Samples.probabilities))
  /\ get_model E "persona_scaler" = Some Samples.narrow_scaler
  /\ returns (Persona.extract_features_array (Persona.features request))
             (Ok Samples.valid_array)
  /\ Persona.predict_persona E request []
     = (Raise (HTTPException 500 ("Prediction failed: " ++ text)%string),
        [] ++ [Log INFO MsgPersonaRequest; GetModel "persona_model";
               GetModel "persona_scaler";
               Log DEBUG (MsgFeaturesShape (shape Samples.valid_array))]
           ++ [CallTransform Samples.valid_array]
           ++ [Log ERROR (MsgPredictionFailed text)]).
Proof.
  intros E request text.
  split; [reflexivity|]. split; [reflexivity|].
  split; [exact valid_features_array|].
  exact (predict_persona_inference_failure E request _ _
           Samples.valid_array [] eq_refl eq_refl valid_features_array).
Defined.

(** ** The confidence *)

Lemma getitem_In {A : Type} (a : list A) i x :
  getitem a i = Some x -> In x a.
Proof.
  unfold getitem. destruct (0 <=? i)%Z.
  - apply nth_error_In.
  - destruct (0 <=? _)%Z; [apply nth_error_In|discriminate].
Qed.

Lemma fold_np_maximum_In rest :
  forall x, In (fold_left np_maximum rest x) (x :: rest).
Proof.
  induction rest as [|y rest IH]; intros x; simpl.
  - now left.
  - destruct (IH (np_maximum x y)) as [H|H].
    + unfold np_maximum in H at 1.
      destruct (SFleb y x || is_nan x); [left|right; left]; exact H.
    + right. right. exact H.
Qed.

(** X6. The confidence computation never fails and calls [predict_proba] at
    most once.  Its result is an entry of the first row of the probabilities
    the model returned, unless the warning is logged, and then it is exactly
    1.0. *)
Theorem persona_confidence_total
    (model : Runtime.model) (x : ndarray) (v : prediction_value)
    (t : trace) :
  let warning := Log WARNING MsgNoPredictProba in
  exists c events,
    Persona.persona_confidence model x v t = (Ok c, t ++ events)
    /\ (events = [warning] \/ events = [CallPredictProba x]
        \/ events = [CallPredictProba x; warning])
    /\ (In warning events -> c = of_Z 1)
    /\ (~ In warning events ->
        exists g probabilities row,
          predict_proba model = Some g /\ g x = Ok probabilities
          /\ getitem probabilities 0 = Some row /\ In c row).
Proof.
  intros warning. rewrite persona_confidence_cases. cbv zeta.
  destruct (predict_proba model) as [g|] eqn:Hg.
  - destruct (g x) as [probabilities|e] eqn:Hgx.
    + destruct (getitem probabilities 0) as [row|] eqn:Hrow.
      * assert (Hsel : forall c,
          match v with
          | PredInt n => getitem row n
          | _ => match np_max row with Ok c => Some c | Raise _ => None end
          end = Some c -> In c row).
        { intros c. destruct v as [n|s|s]; try apply getitem_In;
            (destruct row as [|y row]; simpl; [discriminate|];
             intros [= <-]; apply fold_np_maximum_In). }
        destruct (match v with
                  | PredInt n => getitem row n
                  | _ => match np_max row with
                         | Ok c => Some c | Raise _ => None end
                  end) as [c|].
        -- exists c, [CallPredictProba x]. split; [reflexivity|].
           split; [tauto|]. split.
           ++ intros [H|[]]. discriminate.
           ++ intros _. exists g, probabilities, row. auto.
        -- eexists. eexists. split; [reflexivity|]. split; [tauto|].
           split; [reflexivity|]. intros H. exfalso. apply H. simpl. tauto.
      * eexists. eexists. split; [reflexivity|]. split; [tauto|].
        split; [reflexivity|]. intros H. exfalso. apply H. simpl. tauto.
    + eexists. eexists. split; [reflexivity|]. split; [tauto|].
      split; [reflexivity|]. intros H. exfalso. apply H. simpl. tauto.
  - eexists. eexists. split; [reflexivity|]. split; [tauto|].
    split; [reflexivity|]. intros H. exfalso. apply H. simpl. tauto.
Qed.

Lemma persona_confidence_total_witness :
  let model := Samples.classifier (PredStr "fast_learner")
                 (Some Samples.probabilities) in
  let warning := Log WARNING MsgNoPredictProba in
  exists c events,
    Persona.persona_confidence model Samples.valid_array
      (PredStr "fast_learner") []
    = (Ok c, [] ++ events)
    /\ ~ In warning events
    /\ In c Samples.probabilities.
Proof.
  intros model warning.
  destruct (persona_confidence_total model Samples.valid_array
              (PredStr "fast_learner") [])
    as (c & events & Hrun & Hevents & _ & Hrow).
  exists c, events. split; [exact Hrun|].
  assert (Hnot : ~ In warning events).
  { vm_compute in Hrun. injection Hrun as _ <-.
    intros [H|[]]. discriminate. }
  split; [exact Hnot|].
  destruct (Hrow Hnot) as (g & probabilities & row & Hg & Hgx & Hget & Hin).
  injection Hg as <-. injection Hgx as <-. injection Hget as <-.
  exact Hin.
Defined.

(** ** The largest probability *)
(** Case analysis over the shapes of floats and over the comparisons of
    their exponents and mantissas. *)
Ltac float_cases :=
  repeat match goal with
         | x : float64 |- _ => destruct x as [[]|[]| |[] ? ?]
         end.

Ltac compare_cases :=
  repeat match goal with
         | H : context [Z.compare ?a ?b] |- _ =>
             destruct (Z.compare_spec a b); simpl in H
         | |- context [Z.compare ?a ?b] =>
             destruct (Z.compare_spec a b); simpl
         | H : context [Pos.compare_cont Eq ?a ?b] |- _ =>
             change (Pos.compare_cont Eq a b) with (Pos.compare a b) in H;
             destruct (Pos.compare_spec a b); simpl in H
         | |- context [Pos.compare_cont Eq ?a ?b] =>
             change (Pos.compare_cont Eq a b) with (Pos.compare a b);
             destruct (Pos.compare_spec a b); simpl
         end.

Lemma SFleb_refl (a : float64) : is_nan a = false -> SFleb a a = true.
Proof.
  unfold SFleb, SFcompare. float_cases; simpl; intros H;
    try discriminate; try reflexivity; compare_cases;
    try reflexivity; try lia.
Qed.

Lemma SFleb_total (a b : float64) :
  is_nan a = false -> is_nan b = false ->
  SFleb b a = false -> SFleb a b = true.
Proof.
  unfold SFleb, SFcompare. float_cases; simpl; intros Ha Hb H;
    try discriminate; try reflexivity; compare_cases;
    try discriminate; try reflexivity; try lia.
Qed.

Lemma SFleb_trans (a b c : float64) :
  SFleb a b = true -> SFleb b c = true -> SFleb a c = true.
Proof.
  unfold SFleb, SFcompare. float_cases; simpl; intros Hab Hbc;
    try discriminate; try reflexivity; compare_cases;
    try discriminate; try reflexivity; try lia.
Qed.

Lemma np_maximum_upper (a b : float64) :
  is_nan a = false -> is_nan b = false ->
  is_nan (np_maximum a b) = false
  /\ SFleb a (np_maximum a b) = true /\ SFleb b (np_maximum a b) = true.
Proof.
  intros Ha Hb. unfold np_maximum. rewrite Ha, orb_false_r.
  destruct (SFleb b a) eqn:Hba.
  - split; [exact Ha|]. split; [now apply SFleb_refl|exact Hba].
  - split; [exact Hb|]. split; [now apply SFleb_total|now apply SFleb_refl].
Qed.

Lemma fold_np_maximum_upper rest :
  forall x,
    is_nan x = false -> Forall (fun y => is_nan y = false) rest ->
    forall y, In y (x :: rest) -> SFleb y (fold_left np_maximum rest x) = true.
Proof.
  induction rest as [|z rest IH]; intros x Hx Hrest y Hy; simpl.
  - destruct Hy as [<-|[]]. now apply SFleb_refl.
  - inversion Hrest as [|? ? Hz Hrest']; subst.
    destruct (np_maximum_upper x z Hx Hz) as (Hnan & Hxm & Hzm).
    pose proof (IH (np_maximum x z) Hnan Hrest') as Hup.
    destruct Hy as [<-|[<-|Hy]].
    + eapply SFleb_trans; [exact Hxm|]. apply Hup. now left.
    + eapply SFleb_trans; [exact Hzm|]. apply Hup. now left.
    + apply Hup. now right.
Qed.

Lemma fold_np_maximum_nan rest :
  forall x,
    is_nan x = true \/ Exists (fun y => is_nan y = true) rest ->
    is_nan (fold_left np_maximum rest x) = true.
Proof.
  induction rest as [|z rest IH]; intros x H; simpl.
  - destruct H as [H|H]; [exact H|inversion H].
  - apply IH. destruct H as [H|H].
    + left. unfold np_maximum. now rewrite H, orb_true_r.
    + inversion H as [? ? Hz|? ? Hrest]; subst; [|now right].
      left. unfold np_maximum. destruct z; try discriminate.
      destruct x; reflexivity.
Qed.

(** X7. For a prediction that is not an integer, the confidence read from a
    non-empty first row of probabilities is an entry of that row: one that no
    entry exceeds when the row holds no NaN, and a NaN when it holds one.
    [predict_proba] is called once and nothing is logged. *)
Theorem persona_confidence_is_largest
    (model : Runtime.model) (x probabilities : ndarray)
    (g : ndarray -> result ndarray) (row : list float64)
    (v : prediction_value) (t : trace) :
  predict_proba model = Some g ->
  g x = Ok probabilities ->
  getitem probabilities 0 = Some row ->
  row <> [] ->
  (forall n, v <> PredInt n) ->
  exists c,
    Persona.persona_confidence model x v t = (Ok c, t ++ [CallPredictProba x])
    /\ In c row
    /\ (Forall (fun y => is_nan y = false) row ->
        forall y, In y row -> SFleb y c = true)
    /\ (Exists (fun y => is_nan y = true) row -> is_nan c = true).
Proof.
  intros Hg Hgx Hrow Hne Hv.
  rewrite persona_confidence_cases. cbv zeta. rewrite Hg, Hgx, Hrow.
  destruct row as [|y row]; [contradiction|].
  assert (Hsel :
    match v with
    | PredInt n => getitem (y :: row) n
    | _ => match np_max (y :: row) with
           | Ok c => Some c | Raise _ => None end
    end = Some (fold_left np_maximum row y)).
  { destruct v as [n|s|s]; [now destruct (Hv n)|reflexivity|reflexivity]. }
  rewrite Hsel. exists (fold_left np_maximum row y).
  split; [reflexivity|]. split; [apply fold_np_maximum_In|]. split.
  - intros Hall. inversion Hall; subst.
    now apply fold_np_maximum_upper.
  - intros Hex. apply fold_np_maximum_nan.
    inversion Hex; subst; [now left|now right].
Qed.

Lemma persona_confidence_is_largest_witness :
  let model :=
    Samples.classifier (PredStr "fast_learner") (Some Samples.probabilities) in
  predict_proba model = Some (fun _ => Ok [Samples.probabilities])
  /\ getitem [Samples.probabilities] 0 = Some Samples.probabilities
  /\ Samples.probabilities <> []
  /\ (forall n, PredStr "fast_learner" <> PredInt n)
  /\ Forall (fun y => is_nan y = false) Samples.probabilities
  /\ exists c,
       Persona.persona_confidence model Samples.valid_array
         (PredStr "fast_learner") []
       = (Ok c, [] ++ [CallPredictProba Samples.valid_array])
       /\ c = Samples.decimal 9 (-1)
       /\ forall y, In y Samples.probabilities -> SFleb y c = true.
Proof.
  intros model.
  assert (Hne : Samples.probabilities <> []) by discriminate.
  assert (Hv : forall n, PredStr "fast_learner" <> PredInt n)
    by discriminate.
  assert (Hall : Forall (fun y => is_nan y = false) Samples.probabilities)
    by (repeat constructor).
  split; [reflexivity|]. split; [reflexivity|]. split; [exact Hne|].
  split; [exact Hv|]. split; [exact Hall|].
  destruct (persona_confidence_is_largest model Samples.valid_array
              [Samples.probabilities] (fun _ => Ok [Samples.probabilities])
              Samples.probabilities (PredStr "fast_learner") []
              eq_refl eq_refl eq_refl Hne Hv)
    as (c & Hrun & _ & Hup & _).
  exists c. split; [exact Hrun|]. split; [|exact (Hup Hall)].
  vm_compute in Hrun. now injection Hrun as <-.
Defined.

(** ** Outcomes of [generate_weekly_insights] *)

(** X8. Every failure of [generate_weekly_insights] is an [HTTPException]
    with status 500 whose detail starts with "Insight generation failed: ";
    the last event of the request is the error record with the same text. *)
Theorem generate_weekly_insights_failure_is_500
    (E : env) (request : Insight.InsightRequest) (t t' : trace)
    (e : exception) :
  Insight.generate_weekly_insights E request t = (Raise e, t') ->
  exists text events,
    e = HTTPException 500 ("Insight generation failed: " ++ text)%string
    /\ t' = events ++ [Log ERROR (MsgInsightFailed text)].
Proof.
  intros H. unfold Insight.generate_weekly_insights in H.
  apply try_except_raise_inv in H.
  destruct H as [[_ Hnone]|(e0 & t1 & h & _ & Hh & Hrun)]; [discriminate|].
  injection Hh as <-.
  unfold bind, logger, emit, raise in Hrun. injection Hrun as <- <-.
  now exists (exc_str e0), t1.
Qed.

Lemma generate_weekly_insights_failure_is_500_witness :
  let E := Samples.registry None None None in
  exists e t',
    Insight.generate_weekly_insights E (Samples.insight_request 5 None) []
    = (Raise e, t')
    /\ exists text events,
         e = HTTPException 500 ("Insight generation failed: " ++ text)%string
         /\ t' = events ++ [Log ERROR (MsgInsightFailed text)].
Proof.
  intros E. eexists. eexists.
  assert (Hrun :
    Insight.generate_weekly_insights E (Samples.insight_request 5 None) []
    = (Raise (HTTPException 500
         "Insight generation failed: 'NoneType' object has no attribute 'generate'"),
       [Log INFO MsgGeneratingInsights; GetModel "insight_generator";
        Log ERROR (MsgInsightFailed
                     "'NoneType' object has no attribute 'generate'")]))
    by (vm_compute; reflexivity).
  split; [exact Hrun|].
  exact (generate_weekly_insights_failure_is_500 E _ [] _ _ Hrun).
Defined.

(** With the generator loaded, the improvement rate is always obtained. *)
Lemma improvement_total E request g scoring current t :
  get_model E "insight_generator" = Some g ->
  generate g = Some scoring ->
  exists rate events,
    Insight.improvement E request current t = (Ok rate, t ++ events).
Proof.
  intros Hg Hscoring.
  rewrite (improvement_cases E request g scoring current Hg Hscoring).
  destruct (Insight.supplied _) as [previous|].
  - cbv zeta. destruct (scoring previous _); eexists; eexists; reflexivity.
  - exists pos_zero, []. now rewrite app_nil_r.
Qed.

(** X9. What [generate_weekly_insights] does, with a generator loaded, when
    scoring the current period fails: a generator without [generate] and an
    exception of the scoring call both end in status 500 with the text of the
    exception, and the previous period is not scored.  Once the current
    period is scored, only the message generator can fail the request, and
    the request succeeds whenever it does. *)
Theorem generate_weekly_insights_scoring_failure
    (E : env) (request : Insight.InsightRequest) (g : model) (t : trace) :
  get_model E "insight_generator" = Some g ->
  let weekly :=
    CallGenerate (Insight.weekly_data request) (Insight.persona request) in
  let failed text calls :=
    Insight.generate_weekly_insights E request t
    = (Raise (HTTPException 500
                ("Insight generation failed: " ++ text)%string),
       t ++ [Log INFO MsgGeneratingInsights; GetModel "insight_generator"]
         ++ calls ++ [Log ERROR (MsgInsightFailed text)]) in
  match generate g with
  | None =>
      failed ("'" ++ class_name g
              ++ "' object has no attribute 'generate'")%string []
  | Some scoring =>
      match scoring (Insight.weekly_data request)
                    (Insight.persona request) with
      | Raise e => failed (exc_str e) [weekly]
      | Ok current =>
          match Insight.current_message request current with
          | Raise e =>
              fst (Insight.generate_weekly_insights E request t)
              = Raise (HTTPException 500
                         ("Insight generation failed: " ++ exc_str e)%string)
          | Ok message =>
              exists response,
                fst (Insight.generate_weekly_insights E request t)
                = Ok response
                /\ Insight.extended_message response = message
          end
      end
  end.
Proof.
  intros Hg weekly failed. subst failed weekly. cbv beta.
  destruct (generate g) as [scoring|] eqn:Hscoring.
  - destruct (scoring _ _) as [current|e] eqn:Hcurrent.
    + destruct (improvement_total E request g scoring current
                  (t ++ [Log INFO MsgGeneratingInsights;
                         GetModel "insight_generator";
                         CallGenerate (Insight.weekly_data request)
                                      (Insight.persona request)])
                  Hg Hscoring) as (rate & events & Hrate).
      rewrite (generate_weekly_insights_scored E request g scoring current
                 Hg Hscoring Hcurrent t _ _ Hrate).
      destruct (Insight.current_message request current) as [message|e].
      * eexists. split; reflexivity.
      * reflexivity.
    + unfold Insight.generate_weekly_insights, try_except, bind, logger,
        load, emit, ret, raise, call_generate, lift. simpl.
      rewrite Hg. simpl. rewrite Hscoring. simpl. rewrite Hcurrent.
      norm_trace. reflexivity.
  - unfold Insight.generate_weekly_insights, try_except, bind, logger,
      load, emit, ret, raise, call_generate, attribute_error, lift. simpl.
    rewrite Hg. simpl. rewrite Hscoring. simpl.
    norm_trace. reflexivity.
Qed.

Lemma generate_weekly_insights_scoring_failure_witness :
  let request :=
    {| Insight.weekly_data := [("study_time"%string, PyNone)];
       Insight.persona := "fast_learner";
       Insight.previous_week_data :=
         Some [("study_time"%string, PyInt 3)] |} in
  let text :=
    "unsupported operand type(s) for *: 'int' and 'NoneType'"%string in
  get_model Samples.service "insight_generator"
  = Some (Samples.InsightGenerator 50 5)
  /\ Insight.generate_weekly_insights Samples.service request []
     = (Raise (HTTPException 500
                 ("Insight generation failed: " ++ text)%string),
        [] ++ [Log INFO MsgGeneratingInsights; GetModel "insight_generator"]
           ++ [CallGenerate (Insight.weekly_data request)
                            (Insight.persona request)]
           ++ [Log ERROR (MsgInsightFailed text)]).
Proof.
  intros request text. split; [reflexivity|].
  exact (generate_weekly_insights_scoring_failure Samples.service request
           (Samples.InsightGenerator 50 5) [] eq_refl).
Defined.

Lemma sub_self s m e :
  sub (S754_finite s m e) (S754_finite s m e) = S754_zero false.
Proof. unfold sub, SFsub. rewrite Z.sub_diag. reflexivity. Qed.

(** X10. When both periods are scored and the two scores are the same
    finite number, the response carries improvement rate 0.0. *)
Theorem unchanged_score_no_improvement
    (E : env) (request : Insight.InsightRequest) (g : model)
    (scoring : str_dict value -> string -> result insights)
    (current prev_insights : insights) (previous : str_dict value)
    (t t' : trace) (response : Insight.InsightResponse) :
  get_model E "insight_generator" = Some g ->
  generate g = Some scoring ->
  scoring (Insight.weekly_data request) (Insight.persona request)
  = Ok current ->
  Insight.supplied (Insight.previous_week_data request) = Some previous ->
  scoring previous (Insight.persona request) = Ok prev_insights ->
  engagement_score prev_insights = engagement_score current ->
  is_finite (engagement_score current) = true ->
  Insight.generate_weekly_insights E request t = (Ok response, t') ->
  Insight.improvement_rate response = pos_zero.
Proof.
  intros Hg Hscoring Hcurrent Hsupplied Hprevious Hsame Hfinite Hok.
  pose proof (generate_weekly_insights_scored E request g scoring current
                Hg Hscoring Hcurrent t) as Hrun.
  rewrite (improvement_cases E request g scoring current Hg Hscoring)
    in Hrun.
  rewrite Hsupplied in Hrun. cbv zeta in Hrun. rewrite Hprevious in Hrun.
  specialize (Hrun _ _ eq_refl). rewrite Hrun in Hok.
  destruct (Insight.current_message request current); [|discriminate].
  injection Hok as <- _. simpl. rewrite Hsame.
  destruct (engagement_score current) as [s|s| |[] m e]; try discriminate;
    try reflexivity.
  change (ltb (of_Z 0) (S754_finite false m e)) with true. cbv iota.
  rewrite sub_self. reflexivity.
Qed.

Lemma unchanged_score_no_improvement_witness :
  let previous := [("study_time"%string, PyInt 5)] in
  let request := Samples.insight_request 5 (Some previous) in
  exists response t',
    get_model Samples.service "insight_generator"
    = Some (Samples.InsightGenerator 50 5)
    /\ Insight.supplied (Insight.previous_week_data request) = Some previous
    /\ Insight.generate_weekly_insights Samples.service request []
       = (Ok response, t')
    /\ Insight.engagement_score response = Samples.decimal 75 0
    /\ Insight.improvement_rate response = pos_zero.
Proof.
  intros previous request. eexists. eexists.
  split; [reflexivity|]. split; [reflexivity|].
  assert (Hrun : Insight.generate_weekly_insights Samples.service request []
                 = (fst (Insight.generate_weekly_insights
                           Samples.service request []),
                    snd (Insight.generate_weekly_insights
                           Samples.service request [])))
    by apply surjective_pairing.
  vm_compute in Hrun. split; [exact Hrun|]. split; [reflexivity|].
  match type of Hrun with
  | _ = (Ok ?r, ?tr) =>
      match goal with
      | |- ?lhs = _ =>
          exact (unchanged_score_no_improvement
                   Samples.service (Samples.insight_request 5
                      (Some [("study_time"%string, PyInt 5)]))
                   (Samples.InsightGenerator 50 5) _ _ _
                   [("study_time"%string, PyInt 5)] [] tr r
                   eq_refl eq_refl eq_refl eq_refl eq_refl eq_refl eq_refl
                   Hrun)
      end
  end.
Defined.

(** ** The extended message *)

Lemma key_char_idem c :
  Insight.key_char (Insight.key_char c) = Insight.key_char c.
Proof. destruct c as [[] [] [] [] [] [] [] []]; reflexivity. Qed.

Lemma persona_key_chars persona :
  str_truthy persona = true ->
  Insight.persona_key persona
  = string_of_list_ascii
      (map Insight.key_char (list_ascii_of_string persona)).
Proof.
  intros Htruthy. unfold Insight.persona_key. rewrite Htruthy.
  unfold str_replace_char, str_lower.
  rewrite list_ascii_of_string_of_list_ascii, map_map. reflexivity.
Qed.

Lemma str_truthy_map (f : ascii -> ascii) s :
  str_truthy (string_of_list_ascii (map f (list_ascii_of_string s)))
  = str_truthy s.
Proof. now destruct s. Qed.

Lemma persona_key_idem persona :
  Insight.persona_key (Insight.persona_key persona)
  = Insight.persona_key persona.
Proof.
  destruct (str_truthy persona) eqn:Htruthy.
  - rewrite (persona_key_chars persona Htruthy).
    rewrite persona_key_chars by now rewrite str_truthy_map.
    rewrite list_ascii_of_string_of_list_ascii, map_map.
    f_equal. apply map_ext. apply key_char_idem.
  - assert (Hkey : Insight.persona_key persona = "new_learner"%string)
      by (unfold Insight.persona_key; now rewrite Htruthy).
    rewrite Hkey. reflexivity.
Qed.

(** X11. The message generator is blind to the letter case of the persona
    and to spaces written for underscores: two personas with the same key
    give the same outcome, a persona gives the same outcome as its key, and
    the key of a key is that key.  The empty persona is read as
    "new_learner". *)
Theorem generate_extended_message_persona_key
    (level : string) (metrics : str_dict value) (score : float64)
    (t : trace) :
  (forall persona1 persona2,
     Insight.persona_key persona1 = Insight.persona_key persona2 ->
     Insight.generate_extended_message persona1 level metrics score t
     = Insight.generate_extended_message persona2 level metrics score t)
  /\ (forall persona,
        Insight.generate_extended_message (Insight.persona_key persona)
          level metrics score t
        = Insight.generate_extended_message persona level metrics score t)
  /\ (forall persona,
        Insight.persona_key (Insight.persona_key persona)
        = Insight.persona_key persona)
  /\ Insight.persona_key "" = "new_learner"%string.
Proof.
  assert (Hkey : forall persona1 persona2,
    Insight.persona_key persona1 = Insight.persona_key persona2 ->
    Insight.generate_extended_message persona1 level metrics score t
    = Insight.generate_extended_message persona2 level metrics score t).
  { intros persona1 persona2 Hsame.
    unfold Insight.generate_extended_message. cbv zeta.
    change (if str_truthy persona1
            then str_replace_char " " "_" (str_lower persona1)
            else "new_learner"%string)
      with (Insight.persona_key persona1).
    change (if str_truthy persona2
            then str_replace_char " " "_" (str_lower persona2)
            else "new_learner"%string)
      with (Insight.persona_key persona2).
    rewrite Hsame. reflexivity. }
  split; [exact Hkey|]. split; [|split; [apply persona_key_idem|reflexivity]].
  intros persona. apply Hkey. apply persona_key_idem.
Qed.

Lemma generate_extended_message_persona_key_witness :
  Insight.persona_key "Fast Learner" = Insight.persona_key "FAST_learner"
  /\ Insight.persona_key "Fast Learner" = "fast_learner"%string
  /\ Insight.generate_extended_message "Fast Learner" "good"
       [("quizzes"%string, PyInt 2)] (Samples.decimal 75 0) []
     = Insight.generate_extended_message "FAST_learner" "good"
         [("quizzes"%string, PyInt 2)] (Samples.decimal 75 0) [].
Proof.
  split; [reflexivity|]. split; [reflexivity|].
  apply (proj1 (generate_extended_message_persona_key "good"
                  [("quizzes"%string, PyInt 2)] (Samples.decimal 75 0) [])).
  reflexivity.
Defined.

(** X12. When none of the four metrics is greater than zero (no metrics at
    all, absent keys, zeros, negative numbers, a NaN), the message has the
    sentence of the persona, the sentence of the fresh start, whatever the
    performance level, and the tip of the persona and the level. *)
Theorem generate_extended_message_fresh_start
    (persona level : string) (metrics : str_dict value) (score : float64) :
  (forall name,
     In name ["study_time"; "pomodoro"; "quizzes"; "modules"]%string ->
     py_gt_int (Insight.metric metrics name) 0 = Ok false) ->
  let key := Insight.persona_key persona in
  let insight :=
    get_default String.eqb key
      "Your unique learning style is shaping your educational journey in interesting ways."
      Insight.persona_insights in
  let tip :=
    get_default pair_eqb (key, level)
      "Keep up the effort and stay committed to your learning journey!"
      Insight.tips in
  returns (Insight.generate_extended_message persona level metrics score)
    (Ok (insight ++ " "
         ++ "This week is a fresh start — begin with small steps and watch your progress grow."
         ++ " " ++ tip)%string).
Proof.
  intros Hnone key insight tip t.
  unfold Insight.generate_extended_message, Insight.counted. cbv zeta.
  unfold bind, lift, ret.
  rewrite (Hnone "study_time"%string) by (simpl; tauto).
  rewrite (Hnone "pomodoro"%string) by (simpl; tauto).
  rewrite (Hnone "quizzes"%string) by (simpl; tauto).
  rewrite (Hnone "modules"%string) by (simpl; tauto).
  reflexivity.
Qed.

Lemma generate_extended_message_fresh_start_witness :
  (forall name,
     In name ["study_time"; "pomodoro"; "quizzes"; "modules"]%string ->
     py_gt_int (Insight.metric [] name) 0 = Ok false)
  /\ returns
       (Insight.generate_extended_message "unknown" "excellent" []
          (Samples.decimal 90 0))
       (Ok ("Your unique learning style is shaping your educational journey in interesting ways. "
            ++ "This week is a fresh start — begin with small steps and watch your progress grow. "
            ++ "Keep up the effort and stay committed to your learning journey!")
           %string).
Proof.
  assert (Hnone : forall name,
            In name ["study_time"; "pomodoro"; "quizzes"; "modules"]%string ->
            py_gt_int (Insight.metric [] name) 0 = Ok false)
    by (intros name _; reflexivity).
  split; [exact Hnone|].
  exact (generate_extended_message_fresh_start "unknown" "excellent" []
           (Samples.decimal 90 0) Hnone).
Defined.

Section RaiseAfter.
Context {A B : Type}.



End RaiseAfter.





(** X14. Every text the message generator returns has the same frame: the
    sentence of the persona (the general one for a persona without an entry),
    a space, a sentence that starts with "This week", a space, and the tip of
    the persona and the level (the general one for a pair without an
    entry). *)
Theorem generate_extended_message_frame
    (persona level : string) (metrics : str_dict value) (score : float64)
    (t t' : trace) (message : string) :
  Insight.generate_extended_message persona level metrics score t
  = (Ok message, t') ->
  let key := Insight.persona_key persona in
  let insight :=
    get_default String.eqb key
      "Your unique learning style is shaping your educational journey in interesting ways."
      Insight.persona_insights in
  let tip :=
    get_default pair_eqb (key, level)
      "Keep up the effort and stay committed to your learning journey!"
      Insight.tips in
  exists progress,
    message
    = (insight ++ " " ++ ("This week" ++ progress) ++ " " ++ tip)%string.
Proof.
  intros H key insight tip.
  unfold Insight.generate_extended_message in H. cbv zeta in H.
  apply bind_ok_inv in H. destruct H as (studied & t1 & _ & H).
  apply bind_ok_inv in H. destruct H as (parts1 & t2 & _ & H).
  apply bind_ok_inv in H. destruct H as (parts2 & t3 & _ & H).
  apply bind_ok_inv in H. destruct H as (parts3 & t4 & _ & H).
  apply bind_ok_inv in H. destruct H as (parts4 & t5 & _ & H).
  unfold ret in H. injection H as <- _.
  change (if str_truthy persona
          then str_replace_char " " "_" (str_lower persona)
          else "new_learner"%string) with key.
  fold insight. fold tip.
  destruct parts4 as [|part parts4].
  - eexists. reflexivity.
  - destruct (String.eqb level "excellent");
      [|destruct (String.eqb level "good");
        [|destruct (String.eqb level "average")]];
      eexists; reflexivity.
Qed.

Lemma generate_extended_message_frame_witness :
  exists message t',
    Insight.generate_extended_message "Reflective Learner" "average"
      [("modules"%string, PyInt 1)] (Samples.decimal 60 0) []
    = (Ok message, t')
    /\ exists progress,
         message
         = ("As a Reflective Learner, you excel at deep thinking and connecting ideas in meaningful ways."
            ++ " " ++ ("This week" ++ progress) ++ " "
            ++ "Try journaling about what you learn — it aligns perfectly with your reflective nature.")
           %string.
Proof.
  eexists. eexists. split; [vm_compute; reflexivity|].
  exact (generate_extended_message_frame "Reflective Learner" "average"
           [("modules"%string, PyInt 1)] (Samples.decimal 60 0) [] _ _
           eq_refl).
Defined.

(** ** Summaries and tables *)

(** X15. Every summary shows the engagement score with one decimal followed
    by "/100".  A level without a template of its own, which is any level
    that [get_performance_levels] does not list, gets the plain summary. *)
Theorem summary_of_shows_score (level : string) (score : float64) :
  let shown := format_fixed score 1 in
  (exists before after,
     Insight.summary_of level score
     = (before ++ shown ++ "/100" ++ after)%string)
  /\ (~ In level (map Insight.level_name Insight.get_performance_levels) ->
      Insight.summary_of level score
      = ("Your weekly engagement score: " ++ shown ++ "/100")%string).
Proof.
  intros shown. unfold Insight.summary_of, get_default. simpl get.
  fold shown.
  destruct (String.eqb_spec level "excellent") as [->|H1].
  { split;
      [exists "Outstanding performance this week! Your engagement score of "%string,
              " shows exceptional dedication."%string;
       reflexivity|].
    intros H. exfalso. apply H. simpl. tauto. }
  destruct (String.eqb_spec level "good") as [->|H2].
  { split;
      [exists "Great work this week! Your engagement score of "%string,
              " demonstrates solid progress."%string;
       reflexivity|].
    intros H. exfalso. apply H. simpl. tauto. }
  destruct (String.eqb_spec level "average") as [->|H3].
  { split;
      [exists "You're making progress with an engagement score of "%string,
              ". Let's aim higher next week!"%string;
       reflexivity|].
    intros H. exfalso. apply H. simpl. tauto. }
  destruct (String.eqb_spec level "needs_improvement") as [->|H4].
  { split;
      [exists "Your engagement score of "%string,
              " shows room for improvement. Let's build better habits together!"%string;
       reflexivity|].
    intros H. exfalso. apply H. simpl. tauto. }
  split; [|reflexivity].
  exists "Your weekly engagement score: "%string, ""%string. reflexivity.
Qed.

Lemma summary_of_shows_score_witness :
  ~ In "stellar"%string
       (map Insight.level_name Insight.get_performance_levels)
  /\ Insight.summary_of "stellar" (Samples.decimal 9125 (-2))
     = "Your weekly engagement score: 91.2/100"%string.
Proof.
  assert (Hnot : ~ In "stellar"%string
                   (map Insight.level_name Insight.get_performance_levels)).
  { simpl. intros H. repeat (destruct H as [H|H]; [discriminate|]).
    exact H. }
  split; [exact Hnot|].
  exact (proj2 (summary_of_shows_score "stellar" (Samples.decimal 9125 (-2)))
           Hnot).
Defined.

(** X16. The tables of the two routers agree.  [get_persona_labels] lists
    the labels of [PERSONA_LABELS] in the order of their indices; each label
    is its own key; [persona_insights] has a sentence for exactly these four
    keys, and [tips] has a tip for exactly the pairs of one of them with a
    level that [get_performance_levels] lists. *)
Theorem persona_tables_agree :
  let labels := map snd Persona.PERSONA_LABELS in
  let levels := map Insight.level_name Insight.get_performance_levels in
  map Persona.label Persona.get_persona_labels = labels
  /\ (forall persona, In persona labels ->
        Insight.persona_key persona = persona)
  /\ (forall key,
        contains String.eqb key Insight.persona_insights = true
        <-> In key labels)
  /\ (forall key level,
        contains pair_eqb (key, level) Insight.tips = true
        <-> In key labels /\ In level levels).
Proof.
  intros labels levels. subst labels levels.
  split; [reflexivity|]. split; [|split].
  - intros persona H. simpl in H.
    repeat (destruct H as [<-|H]; [reflexivity|]). contradiction.
  - intros key. split.
    + unfold contains. simpl get. intros H.
      repeat match type of H with
             | context [String.eqb key ?l] =>
                 destruct (String.eqb_spec key l) as [Hk|?];
                 [rewrite Hk; simpl; tauto|]
             end.
      simpl in H. discriminate.
    + intros H. simpl in H.
      repeat (destruct H as [<-|H]; [reflexivity|]). contradiction.
  - intros key level. split.
    + unfold contains, pair_eqb. simpl get. intros H.
      repeat match type of H with
             | context [String.eqb ?a ?b] =>
                 destruct (String.eqb_spec a b); simpl in H
             end;
        try discriminate; subst; try discriminate; simpl; tauto.
    + intros [Hk Hl]. simpl in Hk, Hl.
      repeat (destruct Hk as [<-|Hk];
              [repeat (destruct Hl as [<-|Hl]; [reflexivity|]);
               contradiction|]).
      contradiction.
Qed.

Lemma persona_tables_agree_witness :
  In "new_learner"%string (map snd Persona.PERSONA_LABELS)
  /\ In "good"%string
        (map Insight.level_name Insight.get_performance_levels)
  /\ contains pair_eqb ("new_learner", "good")%string Insight.tips = true.
Proof.
  assert (Hk : In "new_learner"%string (map snd Persona.PERSONA_LABELS))
    by (simpl; tauto).
  assert (Hl : In "good"%string
                 (map Insight.level_name Insight.get_performance_levels))
    by (simpl; tauto).
  split; [exact Hk|]. split; [exact Hl|].
  exact (proj2 (proj2 (proj2 (proj2 persona_tables_agree))
                  "new_learner"%string "good"%string) (conj Hk Hl)).
Defined.

(** ** The settings *)

Section Splitting.
Variable sep : ascii.

Lemma split_on_nonempty s : Config.split_on sep s <> [].
Proof.
  induction s as [|c s IH]; simpl; [discriminate|].
  destruct (Ascii.eqb c sep); [discriminate|].
  destruct (Config.split_on sep s); [contradiction|discriminate].
Qed.

Lemma split_on_length s :
  List.length (Config.split_on sep s)
  = S (List.length (filter (fun c => Ascii.eqb c sep) s)).
Proof.
  induction s as [|c s IH]; simpl; [reflexivity|].
  destruct (Ascii.eqb c sep); simpl; [now rewrite IH|].
  pose proof (split_on_nonempty s) as Hne.
  destruct (Config.split_on sep s); [contradiction|exact IH].
Qed.

(** Every character of a piece is a character of the text, and none is the
    separator. *)
Lemma split_on_pieces s piece c :
  In piece (Config.split_on sep s) -> In c piece ->
  In c s /\ c <> sep.
Proof.
  revert piece. induction s as [|a s IH]; simpl; intros piece Hpiece Hc.
  - destruct Hpiece as [<-|[]]. contradiction.
  - destruct (Ascii.eqb_spec a sep) as [->|Hne].
    + destruct Hpiece as [<-|Hpiece]; [contradiction|].
      destruct (IH piece Hpiece Hc). split; [now right|assumption].
    + pose proof (split_on_nonempty s) as Hnonempty.
      destruct (Config.split_on sep s) as [|first pieces];
        [contradiction|].
      destruct Hpiece as [<-|Hpiece].
      * destruct Hc as [<-|Hc]; [split; [now left|assumption]|].
        destruct (IH first (or_introl eq_refl) Hc).
        split; [now right|assumption].
      * destruct (IH piece (or_intror Hpiece) Hc).
        split; [now right|assumption].
Qed.

End Splitting.

Lemma str_join_split s :
  let sep := ","%char in
  str_join (String sep EmptyString)
    (map string_of_list_ascii (Config.split_on sep s))
  = string_of_list_ascii s.
Proof.
  intros sep. induction s as [|c s IH]; simpl; [reflexivity|].
  pose proof (split_on_nonempty sep s) as Hne.
  destruct (Ascii.eqb_spec c sep) as [->|Hc].
  - simpl map. destruct (Config.split_on sep s) as [|piece pieces];
      [contradiction|].
    simpl map in *. simpl str_join. simpl str_join in IH.
    rewrite IH. reflexivity.
  - destruct (Config.split_on sep s) as [|piece pieces]; [contradiction|].
    simpl map in *. simpl str_join in *.
    destruct (map string_of_list_ascii pieces); simpl in *;
      now rewrite <- IH.
Qed.

(** [lstrip] drops spaces only, and leaves no space in front. *)
Lemma lstrip_spec s :
  exists spaces,
    s = spaces ++ lstrip s
    /\ Forall (fun c => is_space c = true) spaces
    /\ match lstrip s with
       | [] => True
       | c :: _ => is_space c = false
       end.
Proof.
  induction s as [|c s (spaces & Hs & Hspaces & Hhead)]; simpl.
  - exists []. repeat split. constructor.
  - destruct (is_space c) eqn:Hc.
    + exists (c :: spaces). split; [simpl; now rewrite <- Hs|].
      split; [now constructor|exact Hhead].
    + exists []. repeat split; [constructor|exact Hc].
Qed.

Lemma lstrip_fixed s :
  match s with [] => True | c :: _ => is_space c = false end ->
  lstrip s = s.
Proof. destruct s as [|c s]; simpl; [reflexivity|]. now intros ->. Qed.

Lemma strip_fixed s : strip (strip s) = strip s.
Proof.
  unfold strip.
  destruct (lstrip_spec s) as (sp1 & _ & _ & Hhead1).
  set (a := lstrip s) in *.
  destruct (lstrip_spec (rev a)) as (sp2 & Hrev & _ & Hhead2).
  set (b := lstrip (rev a)) in *.
  assert (Ha : a = rev b ++ rev sp2).
  { rewrite <- rev_app_distr, <- Hrev. now rewrite rev_involutive. }
  assert (Hfront : lstrip (rev b) = rev b).
  { apply lstrip_fixed. destruct (rev b) as [|c r] eqn:Hrb; [exact I|].
    rewrite Ha in Hhead1. exact Hhead1. }
  rewrite Hfront, rev_involutive.
  now rewrite (lstrip_fixed b Hhead2).
Qed.

Lemma lstrip_In s c : In c (lstrip s) -> In c s.
Proof.
  induction s as [|a s IH]; simpl; [exact id|].
  destruct (is_space a); [intros H; right; now apply IH|exact id].
Qed.

Lemma strip_In s c : In c (strip s) -> In c s.
Proof.
  unfold strip. intros H. apply in_rev in H. apply lstrip_In in H.
  apply in_rev in H. now apply lstrip_In.
Qed.

Lemma strip_no_space s :
  Forall (fun c => is_space c = false) s -> strip s = s.
Proof.
  intros Hs. unfold strip.
  assert (H1 : lstrip s = s).
  { apply lstrip_fixed. destruct Hs; [exact I|assumption]. }
  rewrite H1.
  assert (H2 : lstrip (rev s) = rev s).
  { apply lstrip_fixed. destruct (rev s) as [|c r] eqn:Hr; [exact I|].
    apply (proj1 (Forall_forall _ _) Hs). apply in_rev. rewrite Hr.
    now left. }
  rewrite H2. apply rev_involutive.
Qed.

(** X17. [cors_origins] always yields one origin more than there are commas
    in [allowed_origins], so one origin, the empty text, for an empty
    setting.  No origin holds a comma, none has whitespace left at either
    end, and every character of an origin comes from the setting. *)
Theorem cors_origins_trimmed (self : Config.Settings) :
  let text := list_ascii_of_string (Config.allowed_origins self) in
  List.length (Config.cors_origins self)
  = S (List.length (filter (fun c => Ascii.eqb c ",") text))
  /\ forall origin,
       In origin (Config.cors_origins self) ->
       Config.str_strip origin = origin
       /\ ~ In ","%char (list_ascii_of_string origin)
       /\ forall c, In c (list_ascii_of_string origin) -> In c text.
Proof.
  intros text. unfold Config.cors_origins, Config.str_split. split.
  - rewrite !length_map. apply split_on_length.
  - intros origin Horigin. rewrite map_map in Horigin.
    apply in_map_iff in Horigin. destruct Horigin as (piece & <- & Hpiece).
    unfold Config.str_strip.
    rewrite !list_ascii_of_string_of_list_ascii.
    split; [now rewrite strip_fixed|]. split.
    + intros Hcomma. apply strip_In in Hcomma.
      now destruct (split_on_pieces _ _ _ _ Hpiece Hcomma).
    + intros c Hc. apply strip_In in Hc.
      now destruct (split_on_pieces _ _ _ _ Hpiece Hc).
Qed.

Lemma cors_origins_trimmed_witness :
  Config.cors_origins
    {| Config.environment := "production";
       Config.allowed_origins := " https://nexalar.app , https://admin.nexalar.app";
       Config.feature_count := 18 |}
  = ["https://nexalar.app"; "https://admin.nexalar.app"]%string
  /\ Config.str_strip "https://nexalar.app" = "https://nexalar.app"%string.
Proof.
  split; [reflexivity|].
  apply (proj2 (cors_origins_trimmed
                  {| Config.environment := "production";
                     Config.allowed_origins :=
                       " https://nexalar.app , https://admin.nexalar.app";
                     Config.feature_count := 18 |})).
  simpl. tauto.
Defined.

(** X18. For a setting without whitespace, joining the origins with commas
    gives the setting back: splitting loses nothing. *)
Theorem cors_origins_join (self : Config.Settings) :
  Forall (fun c => is_space c = false)
         (list_ascii_of_string (Config.allowed_origins self)) ->
  str_join "," (Config.cors_origins self) = Config.allowed_origins self.
Proof.
  intros Hspace. unfold Config.cors_origins, Config.str_split.
  rewrite map_map.
  rewrite (map_ext_in _ string_of_list_ascii).
  - rewrite (str_join_split (list_ascii_of_string
                               (Config.allowed_origins self))).
    apply string_of_list_ascii_of_string.
  - intros piece Hpiece. unfold Config.str_strip.
    rewrite list_ascii_of_string_of_list_ascii. f_equal.
    apply strip_no_space. apply Forall_forall. intros c Hc.
    destruct (split_on_pieces _ _ _ _ Hpiece Hc) as [Hin _].
    exact (proj1 (Forall_forall _ _) Hspace c Hin).
Qed.

Lemma cors_origins_join_witness :
  Forall (fun c => is_space c = false)
         (list_ascii_of_string
            (Config.allowed_origins Config.default_settings))
  /\ Config.cors_origins Config.default_settings
     = ["http://localhost:3000"; "http://localhost:5000";
        "http://localhost:5173"]%string
  /\ str_join "," (Config.cors_origins Config.default_settings)
     = Config.allowed_origins Config.default_settings.
Proof.
  assert (Hspace : Forall (fun c => is_space c = false)
                     (list_ascii_of_string
                        (Config.allowed_origins Config.default_settings)))
    by (simpl; repeat constructor).
  split; [exact Hspace|]. split; [reflexivity|].
  exact (cors_origins_join Config.default_settings Hspace).
Defined.

(** ** What reaches the models, and what comes back *)

(** X21. On the successful path the scaler is called once, on the row the
    builder made, and the model is called on what the scaler returned, never
    on the raw features: [predict] once, and [predict_proba] once when the
    model has it. *)
Theorem predict_persona_data_flow
    (E : env) (request : Persona.PersonaFeaturesRequest)
    (model scaler : Runtime.model) (arr scaled : ndarray)
    (f : ndarray -> result ndarray)
    (p : ndarray -> result (list prediction_value))
    (v : prediction_value) (rest : list prediction_value) (t : trace) :
  get_model E "persona_model" = Some model ->
  get_model E "persona_scaler" = Some scaler ->
  returns (Persona.extract_features_array (Persona.features request))
          (Ok arr) ->
  transform scaler = Some f -> f arr = Ok scaled ->
  predict model = Some p -> p scaled = Ok (v :: rest) ->
  exists response events,
    Persona.predict_persona E request t = (Ok response, t ++ events)
    /\ filter (fun ev =>
                 match ev with
                 | CallTransform _ | CallPredict _ | CallPredictProba _ =>
                     true
                 | _ => false
                 end) events
       = [CallTransform arr; CallPredict scaled]
         ++ match predict_proba model with
            | Some _ => [CallPredictProba scaled]
            | None => []
            end.
Proof.
  intros Hmodel Hscaler Hfeatures Htransform Hscaled Hpredict Hprediction.
  pose proof (predict_persona_ok E request model scaler arr scaled f p v rest
                Hmodel Hscaler Hfeatures Htransform Hscaled Hpredict
                Hprediction t) as Hok.
  rewrite persona_confidence_cases in Hok. cbv zeta in Hok.
  unfold Persona.prediction_events in Hok.
  destruct (predict_proba model) as [g|];
    [destruct (g scaled) as [probabilities|e];
     [destruct (getitem probabilities 0) as [distribution|];
      [destruct v as [n|s|s];
       [destruct (getitem distribution n)
       |destruct (np_max distribution)
       |destruct (np_max distribution)]|]|]|];
    specialize (Hok _ _ eq_refl); rewrite <- !app_assoc in Hok;
    eexists; eexists; (split; [exact Hok|]); reflexivity.
Qed.

Lemma predict_persona_data_flow_witness :
  let request := Samples.persona_request Samples.valid_features in
  let model := Samples.classifier (PredInt 0) (Some Samples.probabilities) in
  get_model Samples.service "persona_model" = Some model
  /\ get_model Samples.service "persona_scaler" = Some Samples.StandardScaler
  /\ returns (Persona.extract_features_array (Persona.features request))
             (Ok Samples.valid_array)
  /\ exists response events,
       Persona.predict_persona Samples.service request []
       = (Ok response, [] ++ events)
       /\ filter (fun ev =>
                    match ev with
                    | CallTransform _ | CallPredict _ | CallPredictProba _ =>
                        true
                    | _ => false
                    end) events
          = [CallTransform Samples.valid_array;
             CallPredict Samples.valid_array;
             CallPredictProba Samples.valid_array].
Proof.
  intros request model.
  split; [reflexivity|]. split; [reflexivity|].
  split; [exact valid_features_array|].
  exact (predict_persona_data_flow Samples.service request model
           Samples.StandardScaler Samples.valid_array Samples.valid_array
           (fun x => Ok x) (fun _ => Ok [PredInt 0]) (PredInt 0) [] []
           eq_refl eq_refl valid_features_array eq_refl eq_refl eq_refl
           eq_refl).
Defined.

Lemma call_generate_ok_inv generator data persona t current t' :
  call_generate generator data persona t = (Ok current, t') ->
  exists g scoring,
    generator = Some g /\ generate g = Some scoring
    /\ scoring data persona = Ok current.
Proof.
  unfold call_generate. destruct generator as [g|]; [|discriminate].
  destruct (generate g) as [scoring|] eqn:Hscoring; [|discriminate].
  unfold bind, emit, lift. simpl.
  destruct (scoring data persona) as [c|e] eqn:Hc; [|discriminate].
  intros [= <- _]. now exists g, scoring.
Qed.

(** X22. [generate_weekly_insights] returns a response only when the
    generator is loaded, scores the current period and the message generator
    succeeds.  The response then repeats the score, the level, the
    recommendations and the metrics of the generator unchanged, names the
    persona as the request wrote it, and carries the summary and the message
    of that score, level and metrics. *)
Theorem generate_weekly_insights_response_inv
    (E : env) (request : Insight.InsightRequest) (t t' : trace)
    (response : Insight.InsightResponse) :
  Insight.generate_weekly_insights E request t = (Ok response, t') ->
  exists g scoring current rate message,
    get_model E "insight_generator" = Some g
    /\ generate g = Some scoring
    /\ scoring (Insight.weekly_data request) (Insight.persona request)
       = Ok current
    /\ Insight.current_message request current = Ok message
    /\ response
       = {| Insight.engagement_score := engagement_score current;
            Insight.performance_level := performance_level current;
            Insight.improvement_rate := round rate 2;
            Insight.recommendations := recommendations current;
            Insight.summary :=
              Insight.summary_of (performance_level current)
                                 (engagement_score current);
            Insight.extended_message := message;
            Insight.metrics := metrics current;
            Insight.response_persona := Insight.persona request |}.
Proof.
  intros H. unfold Insight.generate_weekly_insights in H.
  apply try_except_ok_inv in H.
  destruct H as [H|(e & t1 & h & _ & Hh & Hrun)];
    [|injection Hh as <-;
      unfold bind, logger, emit, raise in Hrun; discriminate].
  apply bind_ok_inv in H. destruct H as (_ & t1 & _ & H).
  apply bind_ok_inv in H. destruct H as (generator & t2 & Hload & H).
  apply load_inv in Hload. destruct Hload as [-> _].
  apply bind_ok_inv in H. destruct H as (current & t3 & Hcurrent & H).
  apply call_generate_ok_inv in Hcurrent.
  destruct Hcurrent as (g & scoring & Hg & Hscoring & Hcurrent).
  apply bind_ok_inv in H. destruct H as (rate & t4 & _ & H).
  apply bind_ok_inv in H. destruct H as (message & t5 & Hmessage & H).
  apply bind_ok_inv in H. destruct H as (_ & t6 & _ & H).
  unfold ret in H. injection H as <- _.
  exists g, scoring, current, rate, message.
  split; [exact Hg|]. split; [exact Hscoring|]. split; [exact Hcurrent|].
  split; [|reflexivity].
  destruct (generate_extended_message_silent (Insight.persona request)
              (performance_level current) (metrics current)
              (engagement_score current)) as [r Hr].
  unfold Insight.current_message. rewrite Hr in *.
  now injection Hmessage as -> _.
Qed.

Lemma generate_weekly_insights_response_inv_witness :
  exists response t',
    Insight.generate_weekly_insights Samples.service
      (Samples.insight_request 5 None) []
    = (Ok response, t')
    /\ Insight.response_persona response = "Fast Learner"%string
    /\ Insight.engagement_score response = Samples.decimal 75 0.
Proof.
  eexists. eexists.
  assert (Hrun : Insight.generate_weekly_insights Samples.service
                   (Samples.insight_request 5 None) []
                 = (fst (Insight.generate_weekly_insights Samples.service
                           (Samples.insight_request 5 None) []),
                    snd (Insight.generate_weekly_insights Samples.service
                           (Samples.insight_request 5 None) [])))
    by apply surjective_pairing.
  vm_compute in Hrun. split; [exact Hrun|].
  match type of Hrun with
  | _ = (Ok ?r, ?tr) =>
      destruct (generate_weekly_insights_response_inv Samples.service
                  (Samples.insight_request 5 None) [] tr r Hrun)
        as (g & scoring & current & rate & message & Hg & Hscoring
            & Hcurrent & _ & Hresponse)
  end.
  split; reflexivity.
Defined.
